(** * Imaging report service: a shallow embedding and its properties

    The development follows the four source files:
    - [ct_models.py], [mammo_models.py]: the report schemas, as data
      interpreted by a model of pydantic's validation and [model_dump];
    - [md_to_json.py]: the extraction operations, over a state holding the
      process-wide client singleton;
    - [app.py]: the health check and the three report handlers, in a state
      and exception monad whose exceptions keep the state reached so far,
      as Python's do.

    Everything outside the repository (the environment, the clock, the
    temporary-file API, the conversion and generation services, [json.loads]
    and pydantic-core's lax conversions) is a field of the record [World]. *)

From Stdlib Require Import ZArith List String Ascii Bool Lia DecimalString.
From Stdlib Require Import Floats.SpecFloat.
Import ListNotations.

Set Warnings "-register-all".

Local Open Scope string_scope.
Local Open Scope Z_scope.

(* ===================================================================== *)
(** ** Python text operations used by the handlers *)
(* ===================================================================== *)

(** Text is modelled over the code points 0..255; [str.lower],
    [str.isspace], [str.strip] and [str.endswith] are Python's on that
    range. *)
Module PyStr.

Definition ord (c : ascii) : Z := Z.of_N (N_of_ascii c).

Definition isupper (c : ascii) : bool :=
  let n := ord c in
  ((65 <=? n) && (n <=? 90)) ||
  ((192 <=? n) && (n <=? 222) && negb (n =? 215)).

Definition lower_char (c : ascii) : ascii :=
  if isupper c then ascii_of_N (Z.to_N (ord c + 32)) else c.

Fixpoint lower (s : string) : string :=
  match s with
  | EmptyString => EmptyString
  | String c r => String (lower_char c) (lower r)
  end.

Definition isspace (c : ascii) : bool :=
  let n := ord c in
  ((9 <=? n) && (n <=? 13)) || ((28 <=? n) && (n <=? 32)) ||
  (n =? 133) || (n =? 160).

Fixpoint lstrip (s : string) : string :=
  match s with
  | EmptyString => EmptyString
  | String c r => if isspace c then lstrip r else s
  end.

Fixpoint rstrip (s : string) : string :=
  match s with
  | EmptyString => EmptyString
  | String c r =>
      match rstrip r with
      | EmptyString => if isspace c then EmptyString else String c EmptyString
      | r' => String c r'
      end
  end.

Definition strip (s : string) : string := rstrip (lstrip s).

Fixpoint endswith (s suffix : string) : bool :=
  String.eqb s suffix ||
  match s with
  | EmptyString => false
  | String _ r => endswith r suffix
  end.

(** Python's truth value of a [str]: non-empty. *)
Definition truthy (s : string) : bool :=
  match s with EmptyString => false | _ => true end.

(** What the specification calls a whitespace-only text. *)
Definition whitespace_only (s : string) : Prop :=
  Forall (fun c => isspace c = true) (list_ascii_of_string s).

(** What the specification calls a name ending in [.pdf], compared
    case-insensitively: a stem followed by a dot and the letters p, d, f in
    either case. *)
Definition pdf_suffix_ci (s : string) : Prop :=
  exists stem c1 c2 c3,
    s = stem ++ String "."%char (String c1 (String c2 (String c3 EmptyString)))
    /\ (c1 = "p"%char \/ c1 = "P"%char)
    /\ (c2 = "d"%char \/ c2 = "D"%char)
    /\ (c3 = "f"%char \/ c3 = "F"%char).

End PyStr.

(* ===================================================================== *)
(** ** Calendar dates ([datetime.date]) *)
(* ===================================================================== *)

Module PyDate.

Record date := mkdate { year : Z; month : Z; day : Z }.

Definition is_leap (y : Z) : bool :=
  (y mod 4 =? 0) && (negb (y mod 100 =? 0) || (y mod 400 =? 0)).

Definition days_in_month (y m : Z) : Z :=
  if m =? 2 then (if is_leap y then 29 else 28)
  else if (m =? 4) || (m =? 6) || (m =? 9) || (m =? 11) then 30
  else 31.

(** The range of [datetime.date]: years 1..9999. *)
Definition valid (d : date) : bool :=
  (1 <=? year d) && (year d <=? 9999) &&
  (1 <=? month d) && (month d <=? 12) &&
  (1 <=? day d) && (day d <=? days_in_month (year d) (month d)).

Definition digit (c : ascii) : option Z :=
  let n := PyStr.ord c in
  if (48 <=? n) && (n <=? 57) then Some (n - 48) else None.

Definition digit_char (n : Z) : ascii := ascii_of_N (Z.to_N (48 + n)).

Definition is_hyphen (c : ascii) : bool := Ascii.eqb c "-"%char.

(** A date written [YYYY-MM-DD], the format the extraction prompt asks
    for and the one a date field accepts from a string. *)
Definition fromisoformat (s : string) : option date :=
  match s with
  | String y1 (String y2 (String y3 (String y4 (String h1
      (String m1 (String m2 (String h2 (String d1 (String d2
        EmptyString))))))))) =>
      match digit y1, digit y2, digit y3, digit y4,
            digit m1, digit m2, digit d1, digit d2 with
      | Some a, Some b, Some c, Some d, Some e, Some f, Some g, Some h =>
          let r := mkdate (1000 * a + 100 * b + 10 * c + d)
                          (10 * e + f) (10 * g + h) in
          if is_hyphen h1 && is_hyphen h2 && valid r then Some r else None
      | _, _, _, _, _, _, _, _ => None
      end
  | _ => None
  end.

Definition pad2 (n : Z) : string :=
  String (digit_char (n / 10)) (String (digit_char (n mod 10)) EmptyString).

Definition pad4 (n : Z) : string :=
  String (digit_char (n / 1000))
    (String (digit_char (n / 100 mod 10))
       (String (digit_char (n / 10 mod 10))
          (String (digit_char (n mod 10)) EmptyString))).

(** [date.isoformat()]. *)
Definition isoformat (d : date) : string :=
  pad4 (year d) ++ "-" ++ pad2 (month d) ++ "-" ++ pad2 (day d).

End PyDate.

(* ===================================================================== *)
(** ** Values *)
(* ===================================================================== *)

(** Python floats are IEEE binary64 values. *)
Definition float := spec_float.

Definition float_of_int (n : Z) : float := binary_normalize 53 1024 n 0 false.

Definition float_sub (a b : float) : float := SFsub 53 1024 a b.

Definition float_is_zero (f : float) : bool :=
  match f with S754_zero _ => true | _ => false end.

(** [math.isfinite]: neither an infinity nor a NaN. *)
Definition float_is_finite (f : float) : bool :=
  match f with S754_infinity _ | S754_nan => false | _ => true end.

(** What [json.loads] can return: [None], [bool], [int], [float], [str],
    [list] and [dict] with string keys, in insertion order. *)
Inductive json : Type :=
| JNull
| JBool (b : bool)
| JInt (n : Z)
| JFloat (f : float)
| JStr (s : string)
| JList (items : list json)
| JDict (entries : list (string * json)).

(** The Python values the handlers build: the above, dates, and instances
    of the report models. *)
Inductive pyval : Type :=
| PNone
| PBool (b : bool)
| PInt (n : Z)
| PFloat (f : float)
| PStr (s : string)
| PDate (d : PyDate.date)
| PList (items : list pyval)
| PDict (entries : list (string * pyval))
| PObject (cls : string) (attrs : list (string * pyval)).

(** A decoded JSON value seen as the Python value it is. *)
Fixpoint of_json (j : json) : pyval :=
  match j with
  | JNull => PNone
  | JBool b => PBool b
  | JInt n => PInt n
  | JFloat f => PFloat f
  | JStr s => PStr s
  | JList l => PList (map of_json l)
  | JDict d => PDict (map (fun kv => (fst kv, of_json (snd kv))) d)
  end.

(** Python's truth value of a decoded JSON value ([if not structured_data]). *)
Definition json_truthy (j : json) : bool :=
  match j with
  | JNull => false
  | JBool b => b
  | JInt n => negb (n =? 0)
  | JFloat f => negb (float_is_zero f)
  | JStr s => PyStr.truthy s
  | JList l => match l with [] => false | _ => true end
  | JDict d => match d with [] => false | _ => true end
  end.

(** Key lookup in a mapping kept as an association list. *)
Fixpoint lookup {A : Type} (k : string) (d : list (string * A)) : option A :=
  match d with
  | [] => None
  | (k', v) :: rest => if String.eqb k k' then Some v else lookup k rest
  end.

Definition keys {A : Type} (d : list (string * A)) : list string := map fst d.

(* ===================================================================== *)
(** ** The external collaborators *)
(* ===================================================================== *)

(** An ordinary Python exception: its class name and its text
    ([str(e)]).  The collaborators outside the repository raise these. *)
Record error := mkerror { error_class : string; error_text : string }.

(** What a handler can raise: FastAPI's [HTTPException], which only
    [app.py] raises, or an ordinary exception. *)
Inductive exn : Type :=
| HTTPException (status_code : Z) (detail : string)
| PyException (e : error).

(** One line of a pydantic [ValidationError]: where, and what. *)
Variant loc_item := LKey (k : string) | LIndex (i : nat).

Definition verror : Type := list loc_item * string.

(** The two client objects; constructing either only stores the key. *)
Record Mistral := { mistral_api_key : string }.

(** Modelled from the spec: [MarkdownConverter] and [pdf_to_markdown_text]
    live in [pdf_to_markdown.py], which is not part of the sources at hand.
    The specification treats the conversion as an external collaborator
    (given a PDF file, produce markdown text) whose client object is cheap
    to build and performs no I/O on construction; the conversion itself is
    the field [pdf_to_markdown_text] of [World]. *)
Record MarkdownConverter := { converter_api_key : string }.

Record World := {
  (** [os.environ.get('MISTRAL_API_KEY')] *)
  environ_MISTRAL_API_KEY : option string;
  (** [time.time()], by number of the reading *)
  time_time : nat -> float;
  (** [tempfile.NamedTemporaryFile(delete=False, suffix='.pdf')]: the name
      of the file created, or the error raised *)
  NamedTemporaryFile : error + string;
  (** [temp_file.write(content)] *)
  temp_file_write : string -> list Byte.byte -> error + unit;
  (** [pdf_to_markdown_text(path, converter, with_images)] *)
  pdf_to_markdown_text : string -> MarkdownConverter -> bool -> error + string;
  (** [client.chat.complete(...).choices[0].message.content] for a model
      name and a prompt: the content, [None], or the error raised *)
  chat_complete : Mistral -> string -> string -> error + option string;
  (** [json.loads] *)
  json_loads : string -> error + json;
  (** [json.dumps(Model.model_json_schema(), indent=2)], by class name *)
  schema_text : string -> string;
  (** pydantic-core's lax conversions of an input that is not already of
      the field's type (numeric strings, integral floats, timestamps...) *)
  lax_int : json -> option Z;
  lax_float : json -> option float;
  lax_bool : json -> option bool;
  lax_date : json -> option PyDate.date;
  (** [str(e)] of a pydantic [ValidationError] *)
  validation_error_text : list verror -> string;
  (** [str(e)] of the [TypeError] the interpreter raises when a model's
      constructor is applied to an unpacked value that is no mapping, by
      the name of the class and the name of the type of the value *)
  unpack_error_text : string -> string -> string;
  (** the format [:.2f] of a float *)
  format_2f : float -> string;
  (** [os.path.exists] and [os.remove] *)
  os_path_exists : string -> bool;
  os_remove : string -> error + unit
}.

(* ===================================================================== *)
(** ** pydantic: field types, validation and [model_dump] *)
(* ===================================================================== *)

Module Pydantic.

(** [Field(..., description=...)] is required; [Field(None, ...)] defaults
    to [None].  Descriptions only feed [model_json_schema]. *)
Variant presence := Required | DefaultNone.

Inductive ftype : Type :=
| TStr
| TInt
| TFloat
| TBool
| TDate
| TOptional (t : ftype)
| TList (t : ftype)
| TModel (cls : string) (fields : list (string * (ftype * presence))).

Definition field (name : string) (t : ftype) (p : presence)
  : string * (ftype * presence) := (name, (t, p)).

(** [Model.model_fields] *)
Definition model_fields (t : ftype) : list (string * (ftype * presence)) :=
  match t with
  | TModel _ fields => fields
  | _ => []
  end.

Definition vresult (A : Type) : Type := list verror + A.

Definition fail {A : Type} (msg : string) : vresult A := inl [([], msg)].

Definition at_loc {A : Type} (l : loc_item) (r : vresult A) : vresult A :=
  match r with
  | inl es => inl (map (fun e => (l :: fst e, snd e)) es)
  | inr v => inr v
  end.

(** A model or a list is valid when every part is; the errors of all
    parts are reported together. *)
Definition both {A B : Type} (r : vresult A) (rs : vresult (list B))
  (f : A -> B) : vresult (list B) :=
  match r, rs with
  | inr v, inr vs => inr (f v :: vs)
  | inl e, inr _ => inl e
  | inr _, inl es => inl es
  | inl e, inl es => inl (e ++ es)%list
  end.

Fixpoint validate_items (f : json -> vresult pyval) (i : nat) (l : list json)
  : vresult (list pyval) :=
  match l with
  | [] => inr []
  | j :: rest =>
      both (at_loc (LIndex i) (f j)) (validate_items f (S i) rest) (fun v => v)
  end.

(** The fields of a model, against the mapping [d]: each declared field
    is looked up; an absent field is an error when required and [None]
    otherwise; keys of [d] that are no field are never looked at. *)
Fixpoint validate_fields (validate : ftype -> json -> vresult pyval)
  (d : list (string * json)) (fs : list (string * (ftype * presence)))
  : vresult (list (string * pyval)) :=
  match fs with
  | [] => inr []
  | (name, (ty, p)) :: rest =>
      both
        (match lookup name d with
         | Some v => at_loc (LKey name) (validate ty v)
         | None =>
             match p with
             | Required => inl [([LKey name], "Field required")]
             | DefaultNone => inr PNone
             end
         end)
        (validate_fields validate d rest)
        (fun v => (name, v))
  end.

Section Validation.

Variable W : World.

Definition or_lax {A : Type} (o : option A) (wrap : A -> pyval) (msg : string)
  : vresult pyval :=
  match o with Some a => inr (wrap a) | None => fail msg end.

Definition validate_str (j : json) : vresult pyval :=
  match j with
  | JStr s => inr (PStr s)
  | _ => fail "Input should be a valid string"
  end.

Definition validate_int (j : json) : vresult pyval :=
  match j with
  | JInt n => inr (PInt n)
  | _ => or_lax (lax_int W j) PInt "Input should be a valid integer"
  end.

(** A float is taken as it is, infinities and NaN included.  An integer is
    converted as [float(n)] does, which raises [OverflowError] beyond the
    range of a float: such an integer is no valid number. *)
Definition validate_float (j : json) : vresult pyval :=
  match j with
  | JFloat f => inr (PFloat f)
  | JInt n =>
      if float_is_finite (float_of_int n) then inr (PFloat (float_of_int n))
      else fail "Input should be a valid number"
  | _ => or_lax (lax_float W j) PFloat "Input should be a valid number"
  end.

Definition validate_bool (j : json) : vresult pyval :=
  match j with
  | JBool b => inr (PBool b)
  | _ => or_lax (lax_bool W j) PBool "Input should be a valid boolean"
  end.

Definition validate_date (j : json) : vresult pyval :=
  match j with
  | JStr s =>
      match PyDate.fromisoformat s with
      | Some d => inr (PDate d)
      | None => or_lax (lax_date W j) PDate "Input should be a valid date"
      end
  | _ => or_lax (lax_date W j) PDate "Input should be a valid date"
  end.

(** Validation of a decoded JSON value against a field type.  The result
    for a model is an instance, [PObject], with one attribute per declared
    field, in the order of declaration. *)
Fixpoint validate (t : ftype) (j : json) {struct t} : vresult pyval :=
  match t with
  | TStr => validate_str j
  | TInt => validate_int j
  | TFloat => validate_float j
  | TBool => validate_bool j
  | TDate => validate_date j
  | TOptional t' =>
      match j with
      | JNull => inr PNone
      | _ => validate t' j
      end
  | TList t' =>
      match j with
      | JList l =>
          match validate_items (validate t') 0 l with
          | inr vs => inr (PList vs)
          | inl es => inl es
          end
      | _ => fail "Input should be a valid list"
      end
  | TModel cls fields =>
      match j with
      | JDict d =>
          match validate_fields validate d fields with
          | inr attrs => inr (PObject cls attrs)
          | inl es => inl es
          end
      | _ => fail "Input should be a valid dictionary"
      end
  end.

End Validation.

(** [model_dump()]: instances become plain dicts, recursively; every other
    value is kept. *)
Fixpoint model_dump (v : pyval) : pyval :=
  match v with
  | PObject _ attrs => PDict (map (fun kv => (fst kv, model_dump (snd kv))) attrs)
  | PList l => PList (map model_dump l)
  | PDict d => PDict (map (fun kv => (fst kv, model_dump (snd kv))) d)
  | _ => v
  end.

End Pydantic.

(* ===================================================================== *)
(** ** ct_models.py *)
(* ===================================================================== *)

Module ct_models.
Import Pydantic.

Definition Measurement : ftype :=
  TModel "Measurement"
    [ field "length" (TOptional TStr) DefaultNone;
      field "width" (TOptional TStr) DefaultNone;
      field "depth" (TOptional TStr) DefaultNone ].

Definition Finding : ftype :=
  TModel "Finding"
    [ field "location" TStr Required;
      field "lobe" (TOptional TStr) DefaultNone;
      field "measurements" Measurement Required;
      field "suv_max_value" (TOptional TFloat) DefaultNone;
      field "description" TStr Required;
      field "comparison" (TOptional TStr) DefaultNone ].

Definition OrganSystem : ftype :=
  TModel "OrganSystem"
    [ field "organ" TStr Required;
      field "hypermetabolic_region" TStr Required;
      field "findings" (TList Finding) Required ].

Definition PETCTReport : ftype :=
  TModel "PETCTReport"
    [ field "patient_name" TStr Required;
      field "date_of_test" TDate Required;
      field "test_type" TStr Required;
      field "organ_systems" (TList OrganSystem) Required;
      field "other_abnormalities" (TOptional TStr) DefaultNone;
      field "impression" TStr Required;
      field "hospital_lab_name" TStr Required;
      field "hospital_lab_id" TStr Required ].

Definition Lesion : ftype :=
  TModel "Lesion"
    [ field "site" TStr Required;
      field "max_length_cm" (TOptional TFloat) DefaultNone;
      field "width_cm" (TOptional TFloat) DefaultNone;
      field "depth_cm" (TOptional TFloat) DefaultNone;
      field "description" TStr Required ].

Definition CTScanReport : ftype :=
  TModel "CTScanReport"
    [ field "patient_name" TStr Required;
      field "test_type" TStr Required;
      field "date_of_test" TDate Required;
      field "imaging_site" TStr Required;
      field "contrast_enhanced" TBool Required;
      field "new_lesion_evidence" TBool Required;
      field "lesions" (TList Lesion) Required;
      field "lymph_nodes_detected" (TOptional TInt) DefaultNone;
      field "impression" TStr Required;
      field "imaging_comments" (TOptional TStr) DefaultNone;
      field "hospital_name" (TOptional TStr) DefaultNone;
      field "hospital_location" (TOptional TStr) DefaultNone ].

End ct_models.

(* ===================================================================== *)
(** ** mammo_models.py *)
(* ===================================================================== *)

Module mammo_models.
Import Pydantic.

Definition Measurement : ftype :=
  TModel "Measurement"
    [ field "length_mm" (TOptional TInt) DefaultNone;
      field "width_mm" (TOptional TInt) DefaultNone ].

Definition Finding : ftype :=
  TModel "Finding"
    [ field "category" (TOptional TStr) DefaultNone;
      field "location" TStr Required;
      field "measurements" (TOptional Measurement) DefaultNone;
      field "shape" (TOptional TStr) DefaultNone;
      field "density" (TOptional TStr) DefaultNone;
      field "associated_calcifications" (TOptional TBool) DefaultNone;
      field "associated_features" (TList TStr) Required;
      field "calcifications" (TOptional TStr) DefaultNone;
      field "architectural_distortion" (TOptional TStr) DefaultNone;
      field "skin_lesion" (TOptional TStr) DefaultNone ].

Definition BreastComposition : ftype :=
  TModel "BreastComposition"
    [ field "name" TStr Required;
      field "findings" (TList Finding) Required ].

Definition MammogramReport : ftype :=
  TModel "MammogramReport"
    [ field "patient_name" TStr Required;
      field "test_type" TStr Required;
      field "date_of_test" TDate Required;
      field "reason_for_test" TStr Required;
      field "breast_composition" (TList BreastComposition) Required;
      field "birads_score" TInt Required;
      field "birads_composition_comments" TStr Required;
      field "impression" (TOptional TStr) DefaultNone;
      field "hospital_name" TStr Required;
      field "lab_technician" (TOptional TStr) DefaultNone ].

End mammo_models.

(* ===================================================================== *)
(** ** Process state and the monad of the handlers *)
(* ===================================================================== *)

Variant level := INFO | WARNING | ERROR.

(** What a run leaves behind: log records, lines printed, and the calls
    made to the conversion and extraction steps. *)
Inductive event : Type :=
| Log (lvl : level) (msg : string)
| Print (msg : string)
| Call (callee : string).

Record state := mkstate {
  (** [md_to_json._mistral_client] *)
  _mistral_client : option Mistral;
  (** [app._converter] *)
  _converter : option MarkdownConverter;
  (** number of readings of [time.time()] so far *)
  clock : nat;
  (** the request's [BackgroundTasks]: function name and argument of each
      [add_task], oldest first *)
  background_tasks : list (string * string);
  (** the handler's local variable [temp_file_path], which its [except]
      clause reads *)
  temp_file_path : option string;
  trace : list event
}.

Definition M (A : Type) : Type := state -> (exn + A) * state.

Definition ret {A : Type} (a : A) : M A := fun s => (inr a, s).

Definition bind {A B : Type} (m : M A) (f : A -> M B) : M B :=
  fun s =>
    match m s with
    | (inr a, s') => f a s'
    | (inl e, s') => (inl e, s')
    end.

Definition raise {A : Type} (e : exn) : M A := fun s => (inl e, s).

(** [try: body / except ... as e: handler e]; the handler re-raises what
    it does not handle. *)
Definition try_except {A : Type} (body : M A) (handler : exn -> M A) : M A :=
  fun s =>
    match body s with
    | (inl e, s') => handler e s'
    | (inr a, s') => (inr a, s')
    end.

(** The outcome of a call that returns or raises an ordinary exception. *)
Definition lift {A : Type} (r : error + A) : M A :=
  fun s =>
    match r with
    | inr a => (inr a, s)
    | inl e => (inl (PyException e), s)
    end.

Declare Scope py_scope.
Delimit Scope py_scope with py.
Notation "x <- m ;; k" := (bind m (fun x => k))
  (at level 61, m at next level, right associativity) : py_scope.
Notation "m ;; k" := (bind m (fun _ => k))
  (at level 61, right associativity) : py_scope.
Local Open Scope py_scope.

Definition emit (e : event) : M unit :=
  fun s => (inr tt,
            mkstate (_mistral_client s) (_converter s) (clock s)
                    (background_tasks s) (temp_file_path s) (trace s ++ [e])).

Definition log (lvl : level) (msg : string) : M unit := emit (Log lvl msg).

Definition set_mistral_client (c : Mistral) : M unit :=
  fun s => (inr tt,
            mkstate (Some c) (_converter s) (clock s)
                    (background_tasks s) (temp_file_path s) (trace s)).

Definition set_converter (c : MarkdownConverter) : M unit :=
  fun s => (inr tt,
            mkstate (_mistral_client s) (Some c) (clock s)
                    (background_tasks s) (temp_file_path s) (trace s)).

Definition set_temp_file_path (p : option string) : M unit :=
  fun s => (inr tt,
            mkstate (_mistral_client s) (_converter s) (clock s)
                    (background_tasks s) p (trace s)).

(** [background_tasks.add_task(function, argument)] *)
Definition add_task (function argument : string) : M unit :=
  fun s => (inr tt,
            mkstate (_mistral_client s) (_converter s) (clock s)
                    (background_tasks s ++ [(function, argument)])
                    (temp_file_path s) (trace s)).

Definition read {A : Type} (f : state -> A) : M A := fun s => (inr (f s), s).

(** [str(e)] *)
Definition str_exn (e : exn) : string :=
  match e with
  | HTTPException c d => NilEmpty.string_of_int (Z.to_int c) ++ ": " ++ d
  | PyException e => error_text e
  end.

Definition str_nat (n : nat) : string := NilEmpty.string_of_uint (Nat.to_uint n).

(** [time.time()] *)
Definition time_now (W : World) : M float :=
  fun s => (inr (time_time W (clock s)),
            mkstate (_mistral_client s) (_converter s) (S (clock s))
                    (background_tasks s) (temp_file_path s) (trace s)).

Definition missing_key : exn :=
  PyException (mkerror "ValueError" "MISTRAL_API_KEY environment variable not set.").

(* ===================================================================== *)
(** ** md_to_json.py *)
(* ===================================================================== *)

Module md_to_json.

Section WithWorld.

Variable W : World.

Definition get_mistral_client : M Mistral :=
  cached <- read _mistral_client ;;
  match cached with
  | Some client => ret client
  | None =>
      match environ_MISTRAL_API_KEY W with
      | Some api_key =>
          if PyStr.truthy api_key then
            let client := {| mistral_api_key := api_key |} in
            set_mistral_client client ;; ret client
          else raise missing_key
      | None => raise missing_key
      end
  end.

Definition model : string := "mistral-medium-latest".

Definition newline : string := String (ascii_of_nat 10) EmptyString.

(** The f-string of each extraction function: opening sentence, the schema,
    the notes, the report. *)
Definition prompt_of (opening cls notes markdown_text : string) : string :=
  opening ++ " Return only a JSON object conforming to this schema:"
  ++ newline ++ newline ++ schema_text W cls ++ newline ++ newline
  ++ "Important notes:" ++ newline ++ notes ++ newline
  ++ "Report:" ++ newline ++ markdown_text.

(** The body the three extraction functions share; they differ in the
    prompt and in the name used in messages (whose leading status glyph is
    left out).  The client is obtained before the [try] block. *)
Definition extract (name title prompt : string) : M json :=
  emit (Call name) ;;
  client <- get_mistral_client ;;
  start_time <- time_now W ;;
  try_except
    (emit (Print ("Starting " ++ title ++ " JSON extraction with "
                  ++ model ++ "...")) ;;
     response_content <- lift (chat_complete W client model prompt) ;;
     match response_content with
     | Some (String _ _ as text) =>
         result <- lift (json_loads W text) ;;
         end_time <- time_now W ;;
         emit (Print (title ++ " JSON extraction completed in "
                      ++ format_2f W (float_sub end_time start_time)
                      ++ " seconds")) ;;
         ret result
     | _ =>
         log ERROR "Empty response from Mistral API" ;;
         ret (JDict [])
     end)
    (fun e =>
       end_time <- time_now W ;;
       log ERROR ("Failed to get " ++ title ++ " data from Mistral API after "
                  ++ format_2f W (float_sub end_time start_time) ++ "s: "
                  ++ str_exn e) ;;
       ret (JDict [])).

Definition ctscan_prompt (markdown_text : string) : string :=
  (prompt_of
     ("Extract structured CT/MRI/USG/Doppler/XRAY/Ultrasound/Thermography/"
      ++ " Scan report data from this markdown text.")
     "CTScanReport"
     ("- Convert dates to YYYY-MM-DD format." ++ newline ++
      "- Extract all findings, impressions, and recommendations." ++ newline ++
      "- Identify the type of scan (e.g., 'CT', 'MRI', 'USG', 'Doppler',"
      ++ " 'XRAY', 'Ultrasound', 'Thermography')." ++ newline ++
      "- Identify the type of CT scan if CT is the type of scan (e.g.,"
      ++ " 'Abdominal', 'Chest', 'Head')." ++ newline ++
      "- Include details about contrast media if used." ++ newline)
     markdown_text).

Definition get_ctscan_json (markdown_text : string) : M json :=
  extract "get_ctscan_json" "CT Scan" (ctscan_prompt markdown_text).

Definition petct_prompt (markdown_text : string) : string :=
  (prompt_of
     "Extract structured PETCT report data from this markdown text."
     "PETCTReport"
     ("- Convert dates to YYYY-MM-DD format." ++ newline ++
      "- Extract all findings, impressions, and recommendations." ++ newline ++
      "- Identify SUV max values for lesions." ++ newline ++
      "- Include details about radiopharmaceutical used." ++ newline)
     markdown_text).

Definition get_petct_json (markdown_text : string) : M json :=
  extract "get_petct_json" "PETCT" (petct_prompt markdown_text).

Definition mammogram_prompt (markdown_text : string) : string :=
  (prompt_of
     "Extract structured mammogram report data from this markdown text."
     "MammogramReport"
     ("- Convert dates to YYYY-MM-DD format." ++ newline ++
      "- Extract BIRADS category." ++ newline ++
      "- Identify breast density." ++ newline ++
      "- Include details about findings and recommendations." ++ newline)
     markdown_text).

Definition get_mammogram_json (markdown_text : string) : M json :=
  extract "get_mammogram_json" "Mammogram" (mammogram_prompt markdown_text).

End WithWorld.

End md_to_json.

(* ===================================================================== *)
(** ** app.py *)
(* ===================================================================== *)

Module app.

Import Pydantic.

(** The three response classes have the same fields; [data] is declared
    [Optional[dict]], so building a response checks that it is one, and
    raises pydantic's [ValidationError] with one error, at [data],
    otherwise. *)
Record Response := {
  success : bool;
  message : string;
  data : option (list (string * pyval));
  processing_time : option float
}.

Definition new_Response (W : World) (success : bool) (message : string)
  (data : pyval) (processing_time : float) : error + Response :=
  match data with
  | PDict d => inr (Build_Response success message (Some d) (Some processing_time))
  | PNone => inr (Build_Response success message None (Some processing_time))
  | _ =>
      inl (mkerror "ValidationError"
             (validation_error_text W
                [([LKey "data"], "Input should be a valid dictionary")]))
  end.

Definition CTScanResponse := new_Response.
Definition PETCTResponse := new_Response.
Definition MammogramResponse := new_Response.

Record HealthResponse := {
  status : string;
  mistral_api_configured : bool
}.

(** An uploaded file: its name, and what [await file.read()] gives. *)
Record UploadFile := {
  filename : option string;
  file_read : error + list Byte.byte
}.

Variant report_kind := ctscan | petct | mammogram.

Definition title (k : report_kind) : string :=
  match k with
  | ctscan => "CT Scan"
  | petct => "PETCT"
  | mammogram => "Mammogram"
  end.

Definition report_model (k : report_kind) : ftype :=
  match k with
  | ctscan => ct_models.CTScanReport
  | petct => ct_models.PETCTReport
  | mammogram => mammo_models.MammogramReport
  end.

Definition response_class (k : report_kind)
  : World -> bool -> string -> pyval -> float -> error + Response :=
  match k with
  | ctscan => CTScanResponse
  | petct => PETCTResponse
  | mammogram => MammogramResponse
  end.

Definition extractor_name (k : report_kind) : string :=
  match k with
  | ctscan => "get_ctscan_json"
  | petct => "get_petct_json"
  | mammogram => "get_mammogram_json"
  end.

Definition type_name (j : json) : string :=
  match j with
  | JNull => "NoneType"
  | JBool _ => "bool"
  | JInt _ => "int"
  | JFloat _ => "float"
  | JStr _ => "str"
  | JList _ => "list"
  | JDict _ => "dict"
  end.

(** [not file.filename or not file.filename.lower().endswith('.pdf')],
    negated. *)
Definition is_pdf_upload (file : UploadFile) : bool :=
  match filename file with
  | Some name => PyStr.truthy name && PyStr.endswith (PyStr.lower name) ".pdf"
  | None => false
  end.

(** [Model.__name__] *)
Definition class_name (t : ftype) : string :=
  match t with
  | TModel cls _ => cls
  | _ => EmptyString
  end.

Definition filename_text (file : UploadFile) : string :=
  match filename file with Some name => name | None => "None" end.

Section WithWorld.

Variable W : World.

Definition get_converter : M MarkdownConverter :=
  cached <- read _converter ;;
  match cached with
  | Some converter => ret converter
  | None =>
      match environ_MISTRAL_API_KEY W with
      | Some api_key =>
          if PyStr.truthy api_key then
            let converter := {| converter_api_key := api_key |} in
            set_converter converter ;; ret converter
          else raise missing_key
      | None => raise missing_key
      end
  end.

Definition cleanup_temp_file (file_path : string) : M unit :=
  try_except
    (if os_path_exists W file_path then
       lift (os_remove W file_path) ;;
       log INFO ("Cleaned up temporary file: " ++ file_path)
     else ret tt)
    (fun e =>
       log ERROR ("Failed to cleanup temporary file " ++ file_path ++ ": "
                  ++ str_exn e)).

Definition health_check : M HealthResponse :=
  try_except
    (let mistral_configured :=
       match environ_MISTRAL_API_KEY W with
       | Some api_key => PyStr.truthy api_key
       | None => false
       end in
     (if mistral_configured then
        _ <- md_to_json.get_mistral_client W ;;
        _ <- get_converter ;;
        ret tt
      else ret tt) ;;
     ret {| status := "healthy"; mistral_api_configured := mistral_configured |})
    (fun e =>
       log ERROR ("Health check failed: " ++ str_exn e) ;;
       raise (HTTPException 500 ("Service unhealthy: " ++ str_exn e))).

Definition get_json (k : report_kind) : string -> M json :=
  match k with
  | ctscan => md_to_json.get_ctscan_json W
  | petct => md_to_json.get_petct_json W
  | mammogram => md_to_json.get_mammogram_json W
  end.

(** The model's constructor applied to the unpacked [structured_data]:
    unpacking anything but a mapping is a [TypeError]; a mapping is
    validated against the model. *)
Definition construct (t : ftype) (structured_data : json) : M pyval :=
  match structured_data with
  | JDict _ =>
      match validate W t structured_data with
      | inr report => ret report
      | inl errors =>
          raise (PyException
                   (mkerror "ValidationError" (validation_error_text W errors)))
      end
  | _ =>
      raise (PyException
               (mkerror "TypeError"
                  (unpack_error_text W (class_name t)
                     (type_name structured_data))))
  end.

(** The [try] block of a report handler. *)
Definition process_body (k : report_kind) (file : UploadFile)
  (start_time : float) : M Response :=
  (if is_pdf_upload file then ret tt
   else raise (HTTPException 400 "Only PDF files are supported")) ;;
  path <- lift (NamedTemporaryFile W) ;;
  set_temp_file_path (Some path) ;;
  content <- lift (file_read file) ;;
  lift (temp_file_write W path content) ;;
  log INFO ("Processing " ++ title k ++ " report: " ++ filename_text file
            ++ " (" ++ str_nat (List.length content) ++ " bytes)") ;;
  converter <- get_converter ;;
  emit (Call "pdf_to_markdown_text") ;;
  markdown_text <- lift (pdf_to_markdown_text W path converter false) ;;
  (if PyStr.truthy (PyStr.strip markdown_text) then ret tt
   else raise (HTTPException 400 "Failed to extract text from PDF")) ;;
  structured_data <- get_json k markdown_text ;;
  (if json_truthy structured_data then ret tt
   else raise (HTTPException 400
                 "Failed to extract structured data from document")) ;;
  validated_data <-
    try_except
      (report <- construct (report_model k) structured_data ;;
       ret (model_dump report))
      (fun validation_error =>
         log WARNING ("Data validation warning for " ++ title k ++ ": "
                      ++ str_exn validation_error) ;;
         ret (of_json structured_data)) ;;
  end_time <- time_now W ;;
  let processing_time := float_sub end_time start_time in
  log INFO ("Successfully processed " ++ filename_text file ++ " in "
            ++ format_2f W processing_time ++ " seconds") ;;
  add_task "cleanup_temp_file" path ;;
  lift (response_class k W true
          ("Successfully processed " ++ title k ++ " report: "
           ++ filename_text file)
          validated_data processing_time).

(** The [except] clauses of a report handler. *)
Definition process_except (k : report_kind) (file : UploadFile) (e : exn)
  : M Response :=
  match e with
  | HTTPException _ _ => raise e
  | PyException _ =>
      log ERROR ("Error processing " ++ title k ++ " report "
                 ++ filename_text file ++ ": " ++ str_exn e) ;;
      saved <- read temp_file_path ;;
      match saved with
      | Some path => add_task "cleanup_temp_file" path
      | None => ret tt
      end ;;
      raise (HTTPException 500 ("Internal server error: " ++ str_exn e))
  end.

(** The three handlers are the same function up to the names of the
    report kind, of its extraction function and of its model. *)
Definition process_report (k : report_kind) (file : UploadFile) : M Response :=
  start_time <- time_now W ;;
  set_temp_file_path None ;;
  try_except (process_body k file start_time) (process_except k file).

Definition process_ctscan_report : UploadFile -> M Response :=
  process_report ctscan.

Definition process_petct_report : UploadFile -> M Response :=
  process_report petct.

Definition process_mammogram_report : UploadFile -> M Response :=
  process_report mammogram.

End WithWorld.

(** *** What the framework sends *)

(** The JSON form of a Python value in a response body: a date is written
    in ISO format, an instance as its fields, and a float that is an
    infinity or a NaN, which JSON cannot write, as [null]. *)
Fixpoint to_jsonable (v : pyval) : json :=
  match v with
  | PNone => JNull
  | PBool b => JBool b
  | PInt n => JInt n
  | PFloat f => if float_is_finite f then JFloat f else JNull
  | PStr s => JStr s
  | PDate d => JStr (PyDate.isoformat d)
  | PList l => JList (map to_jsonable l)
  | PDict d => JDict (map (fun kv => (fst kv, to_jsonable (snd kv))) d)
  | PObject _ d => JDict (map (fun kv => (fst kv, to_jsonable (snd kv))) d)
  end.

Record http_response := { status_code : Z; body : json }.

Definition option_json {A : Type} (f : A -> json) (o : option A) : json :=
  match o with Some a => f a | None => JNull end.

(** A returned envelope is sent with status 200; an [HTTPException] with
    its status and its detail. *)
Definition respond (r : exn + Response) : http_response :=
  match r with
  | inr env =>
      {| status_code := 200;
         body := JDict
           [ ("success", JBool (success env));
             ("message", JStr (message env));
             ("data", option_json (fun d => to_jsonable (PDict d)) (data env));
             ("processing_time",
                option_json (fun t => to_jsonable (PFloat t))
                  (processing_time env)) ] |}
  | inl (HTTPException c d) =>
      {| status_code := c; body := JDict [("detail", JStr d)] |}
  | inl (PyException _) =>
      {| status_code := 500; body := JStr "Internal Server Error" |}
  end.

End app.

(* ===================================================================== *)
(** ** Concrete worlds, used to run the model *)
(* ===================================================================== *)

Module Demo.

Definition json_error : error :=
  mkerror "JSONDecodeError" "Expecting value: line 1 column 1 (char 0)".

(** A world in which everything works, up to four choices: the
    environment variable, the markdown the conversion gives, the reply of
    the generation service, and how that reply decodes.  Of pydantic's lax
    conversions it has one, the numeric string ["4"] for an integer; the
    text of a [ValidationError] is rendered as its messages. *)
Definition world (env : option string) (markdown : error + string)
  (reply : error + option string) (decoded : error + json) : World :=
  {| environ_MISTRAL_API_KEY := env;
     time_time := fun n => float_of_int (Z.of_nat n);
     NamedTemporaryFile := inr "/tmp/tmpk3v9.pdf";
     temp_file_write := fun _ _ => inr tt;
     pdf_to_markdown_text := fun _ _ _ => markdown;
     chat_complete := fun _ _ _ => reply;
     json_loads := fun _ => decoded;
     schema_text := fun cls => "{ title: " ++ cls ++ " }";
     lax_int := fun j => match j with
                         | JStr s => if String.eqb s "4" then Some 4 else None
                         | _ => None
                         end;
     lax_float := fun _ => None;
     lax_bool := fun _ => None;
     lax_date := fun _ => None;
     validation_error_text := fun es => String.concat "; " (map snd es);
     unpack_error_text := fun cls ty =>
       cls ++ "() argument after ** must be a mapping, not " ++ ty;
     format_2f := fun _ => "0.00";
     os_path_exists := fun _ => true;
     os_remove := fun _ => inr tt |}.

(** A fresh process: no client built yet, nothing scheduled or logged. *)
Definition fresh : state := mkstate None None 0 [] None [].

Definition upload (name : string) : app.UploadFile :=
  {| app.filename := Some name; app.file_read := inr [] |}.

(** The minimal CT-scan extraction of the specification. *)
Definition minimal_ct : list (string * json) :=
  [ ("patient_name", JStr "Jane Doe");
    ("test_type", JStr "CT");
    ("date_of_test", JStr "2024-01-15");
    ("imaging_site", JStr "Abdomen");
    ("contrast_enhanced", JBool true);
    ("new_lesion_evidence", JBool false);
    ("lesions", JList []);
    ("impression", JStr "No acute findings.");
    ("hospital_name", JStr "General Hospital") ].

(** A CT-scan extraction that supplies every field of the schema. *)
Definition full_ct : list (string * json) :=
  [ ("patient_name", JStr "Jane Doe");
    ("test_type", JStr "CT");
    ("date_of_test", JStr "2024-01-15");
    ("imaging_site", JStr "Abdomen");
    ("contrast_enhanced", JBool true);
    ("new_lesion_evidence", JBool false);
    ("lesions",
       JList [ JDict [ ("site", JStr "Uterus");
                       ("max_length_cm", JFloat (float_of_int 3));
                       ("width_cm", JNull);
                       ("depth_cm", JNull);
                       ("description", JStr "Well-defined lesion") ] ]);
    ("lymph_nodes_detected", JInt 2);
    ("impression", JStr "No acute findings.");
    ("imaging_comments", JNull);
    ("hospital_name", JStr "General Hospital");
    ("hospital_location", JNull) ].


(** A mammogram extraction whose BI-RADS score came as a string and that
    carries a key the schema does not know. *)
Definition mammogram_with_string_score : list (string * json) :=
  [ ("patient_name", JStr "Jane Doe");
    ("test_type", JStr "Mammogram");
    ("date_of_test", JStr "2024-02-29");
    ("reason_for_test", JStr "Screening");
    ("breast_composition",
       JList [ JDict [ ("name", JStr "Left Composition");
                       ("findings",
                          JList [ JDict [ ("location", JStr "Central, Retro");
                                          ("associated_features", JList []) ] ]) ] ]);
    ("birads_score", JStr "4");
    ("birads_composition_comments", JStr "Heterogeneously dense");
    ("hospital_name", JStr "General Hospital");
    ("referring_physician", JStr "Dr. Roe") ].

(** The minimal CT-scan extraction with one lesion whose length is an
    integer beyond the range of a float. *)
Definition ct_with_overflowing_length : list (string * json) :=
  [ ("patient_name", JStr "Jane Doe");
    ("test_type", JStr "CT");
    ("date_of_test", JStr "2024-01-15");
    ("imaging_site", JStr "Abdomen");
    ("contrast_enhanced", JBool true);
    ("new_lesion_evidence", JBool false);
    ("lesions",
       JList [ JDict [ ("site", JStr "Uterus");
                       ("max_length_cm", JInt (2 ^ 1024));
                       ("description", JStr "Well-defined lesion") ] ]);
    ("impression", JStr "No acute findings.");
    ("hospital_name", JStr "General Hospital") ].

(** The minimal CT-scan extraction with a lymph-node count that is no
    number. *)
Definition ct_with_worded_count : list (string * json) :=
  [ ("patient_name", JStr "Jane Doe");
    ("test_type", JStr "CT");
    ("date_of_test", JStr "2024-01-15");
    ("imaging_site", JStr "Abdomen");
    ("contrast_enhanced", JBool true);
    ("new_lesion_evidence", JBool false);
    ("lesions", JList []);
    ("lymph_nodes_detected", JStr "several");
    ("impression", JStr "No acute findings.");
    ("hospital_name", JStr "General Hospital") ].

Definition working (decoded : json) : World :=
  world (Some "sk-test") (inr "# CT abdomen") (inr (Some "{...}")) (inr decoded).

(** The conversion raises an error with the given text. *)
Definition failing_conversion (text : string) : World :=
  world (Some "sk-test") (inl (mkerror "RuntimeError" text))
        (inr (Some "{...}")) (inr (JDict minimal_ct)).

(** The conversion gives blanks only. *)
Definition blank_conversion : World :=
  world (Some "sk-test") (inr "  ") (inr (Some "{...}")) (inr (JDict minimal_ct)).

(** The same with the credential unset, and set to the empty string. *)
Definition unconfigured : World :=
  world None (inr "# CT abdomen") (inr (Some "{...}")) (inr (JDict minimal_ct)).

Definition empty_credential : World :=
  world (Some "") (inr "# CT abdomen") (inr (Some "{...}")) (inr (JDict minimal_ct)).

End Demo.

(* ===================================================================== *)
(** ** Vocabulary of the properties *)
(* ===================================================================== *)

Module Props.
Import app.

(** The credential as the code sees it: set, and not the empty string. *)
Definition usable_key (W : World) : option string :=
  match environ_MISTRAL_API_KEY W with
  | Some k => if PyStr.truthy k then Some k else None
  | None => None
  end.

(** The client each singleton accessor can hand out in a state: the one
    cached, or a new one when the credential is usable. *)
Definition client_for (W : World) (s : state) : option Mistral :=
  match _mistral_client s with
  | Some c => Some c
  | None => option_map Build_Mistral (usable_key W)
  end.

Definition converter_for (W : World) (s : state) : option MarkdownConverter :=
  match _converter s with
  | Some c => Some c
  | None => option_map Build_MarkdownConverter (usable_key W)
  end.

Definition prompt (W : World) (k : report_kind) (markdown_text : string) : string :=
  match k with
  | ctscan => md_to_json.ctscan_prompt W markdown_text
  | petct => md_to_json.petct_prompt W markdown_text
  | mammogram => md_to_json.mammogram_prompt W markdown_text
  end.

(** The upload is a PDF by name and is stored in the temporary file [path]. *)
Definition stored (W : World) (file : UploadFile) (path : string) : Prop :=
  (exists name, filename file = Some name /\ PyStr.pdf_suffix_ci name) /\
  NamedTemporaryFile W = inr path /\
  exists content,
    file_read file = inr content /\ temp_file_write W path content = inr tt.

(** The conversion step runs on the stored upload and gives [markdown]. *)
Definition converted (W : World) (file : UploadFile) (s : state)
  (path markdown : string) : Prop :=
  stored W file path /\
  exists converter,
    converter_for W s = Some converter /\
    pdf_to_markdown_text W path converter false = inr markdown.

(** The extraction step runs on the converted upload, the generation
    service answers with a non-empty text, and the text decodes to [j]. *)
Definition extracted (W : World) (k : report_kind) (file : UploadFile)
  (s : state) (path : string) (j : json) : Prop :=
  exists markdown client text,
    converted W file s path markdown /\
    ~ PyStr.whitespace_only markdown /\
    client_for W s = Some client /\
    chat_complete W client md_to_json.model (prompt W k markdown) = inr (Some text) /\
    text <> EmptyString /\
    json_loads W text = inr j.

(** The round trip of the specification, written from its sentence: the
    dump of a validated report is the input mapping unchanged, except for
    the type coercions the schema prescribes and the removal of the keys
    that are no field of the schema.  Under [AsStated] nothing else may
    differ, so a field absent from the input is absent from the dump; under
    [WithDefaults] an absent optional field appears with the value [None].
    The fields of the dump come in the order of declaration. *)
Variant reading := AsStated | WithDefaults.

Inductive round_trip (W : World) (r : reading)
  : Pydantic.ftype -> json -> pyval -> Prop :=
| rt_str s : round_trip W r Pydantic.TStr (JStr s) (PStr s)
| rt_int n : round_trip W r Pydantic.TInt (JInt n) (PInt n)
| rt_int_coerced j n :
    lax_int W j = Some n -> round_trip W r Pydantic.TInt j (PInt n)
| rt_float f : round_trip W r Pydantic.TFloat (JFloat f) (PFloat f)
| rt_float_of_int n :
    float_is_finite (float_of_int n) = true ->
    round_trip W r Pydantic.TFloat (JInt n) (PFloat (float_of_int n))
| rt_float_coerced j f :
    lax_float W j = Some f -> round_trip W r Pydantic.TFloat j (PFloat f)
| rt_bool b : round_trip W r Pydantic.TBool (JBool b) (PBool b)
| rt_bool_coerced j b :
    lax_bool W j = Some b -> round_trip W r Pydantic.TBool j (PBool b)
| rt_date s d :
    PyDate.fromisoformat s = Some d ->
    round_trip W r Pydantic.TDate (JStr s) (PDate d)
| rt_date_coerced j d :
    lax_date W j = Some d -> round_trip W r Pydantic.TDate j (PDate d)
| rt_null t : round_trip W r (Pydantic.TOptional t) JNull PNone
| rt_optional t j v :
    j <> JNull -> round_trip W r t j v ->
    round_trip W r (Pydantic.TOptional t) j v
| rt_list t js vs :
    Forall2 (round_trip W r t) js vs ->
    round_trip W r (Pydantic.TList t) (JList js) (PList vs)
| rt_model cls fs d out :
    round_trip_fields W r fs d out ->
    round_trip W r (Pydantic.TModel cls fs) (JDict d) (PDict out)

with round_trip_fields (W : World) (r : reading)
  : list (string * (Pydantic.ftype * Pydantic.presence)) ->
    list (string * json) -> list (string * pyval) -> Prop :=
| rtf_nil d : round_trip_fields W r [] d []
| rtf_present name t p fs d j v out :
    lookup name d = Some j ->
    round_trip W r t j v ->
    round_trip_fields W r fs d out ->
    round_trip_fields W r ((name, (t, p)) :: fs) d ((name, v) :: out)
| rtf_absent name t p fs d out :
    r = AsStated ->
    lookup name d = None ->
    round_trip_fields W r fs d out ->
    round_trip_fields W r ((name, (t, p)) :: fs) d out
| rtf_default name t fs d out :
    r = WithDefaults ->
    lookup name d = None ->
    round_trip_fields W r fs d out ->
    round_trip_fields W r ((name, (t, Pydantic.DefaultNone)) :: fs) d
      ((name, PNone) :: out).

(** The mappings the round trip of the specification is about, written
    from its sentence: the mapping supplies every required field, and what
    it supplies has a value of the declared type, or one that the schema's
    coercions turn into it (a numeric string for a number, a [YYYY-MM-DD]
    string for a date).  An optional field may be absent or [null]; keys
    that are no field of the schema are not constrained. *)
Inductive well_typed (W : World) : Pydantic.ftype -> json -> Prop :=
| wt_str s : well_typed W Pydantic.TStr (JStr s)
| wt_int n : well_typed W Pydantic.TInt (JInt n)
| wt_int_coerced j n :
    lax_int W j = Some n -> well_typed W Pydantic.TInt j
| wt_float f : well_typed W Pydantic.TFloat (JFloat f)
| wt_float_of_int n :
    float_is_finite (float_of_int n) = true ->
    well_typed W Pydantic.TFloat (JInt n)
| wt_float_coerced j f :
    type_name j <> "int" -> lax_float W j = Some f ->
    well_typed W Pydantic.TFloat j
| wt_bool b : well_typed W Pydantic.TBool (JBool b)
| wt_bool_coerced j b :
    lax_bool W j = Some b -> well_typed W Pydantic.TBool j
| wt_date s d :
    PyDate.fromisoformat s = Some d -> well_typed W Pydantic.TDate (JStr s)
| wt_date_coerced j d :
    lax_date W j = Some d -> well_typed W Pydantic.TDate j
| wt_null t : well_typed W (Pydantic.TOptional t) JNull
| wt_optional t j :
    well_typed W t j -> well_typed W (Pydantic.TOptional t) j
| wt_list t js :
    Forall (well_typed W t) js -> well_typed W (Pydantic.TList t) (JList js)
| wt_model cls fs d :
    supplies W fs d -> well_typed W (Pydantic.TModel cls fs) (JDict d)

with supplies (W : World)
  : list (string * (Pydantic.ftype * Pydantic.presence)) ->
    list (string * json) -> Prop :=
| sup_nil d : supplies W [] d
| sup_present name t p fs d j :
    lookup name d = Some j -> well_typed W t j -> supplies W fs d ->
    supplies W ((name, (t, p)) :: fs) d
| sup_absent name t fs d :
    lookup name d = None -> supplies W fs d ->
    supplies W ((name, (t, Pydantic.DefaultNone)) :: fs) d.

(** A decoded value that is already what the schema declares: every field
    of a model is supplied, in the order of declaration and with no other
    key, with the JSON type of its declaration; a number is one JSON can
    write, so no infinity and no NaN; a date is a valid [YYYY-MM-DD]
    string; an optional field may be [null]. *)
Inductive plain : Pydantic.ftype -> json -> Prop :=
| pl_str s : plain Pydantic.TStr (JStr s)
| pl_int n : plain Pydantic.TInt (JInt n)
| pl_float f : float_is_finite f = true -> plain Pydantic.TFloat (JFloat f)
| pl_bool b : plain Pydantic.TBool (JBool b)
| pl_date s d :
    PyDate.fromisoformat s = Some d -> plain Pydantic.TDate (JStr s)
| pl_null t : plain (Pydantic.TOptional t) JNull
| pl_optional t j :
    j <> JNull -> plain t j -> plain (Pydantic.TOptional t) j
| pl_list t js :
    Forall (plain t) js -> plain (Pydantic.TList t) (JList js)
| pl_model cls fs d :
    NoDup (keys fs) -> plain_fields fs d ->
    plain (Pydantic.TModel cls fs) (JDict d)

with plain_fields
  : list (string * (Pydantic.ftype * Pydantic.presence)) ->
    list (string * json) -> Prop :=
| plf_nil : plain_fields [] []
| plf_cons name t p fs j d :
    plain t j -> plain_fields fs d ->
    plain_fields ((name, (t, p)) :: fs) ((name, j) :: d).

(** The JSON form in which the dump of a validated value is sent. *)
Definition dumped_json (v : pyval) : json :=
  to_jsonable (Pydantic.model_dump v).

(** The events a run added to the trace. *)
Definition added (before after : state) (events : list event) : Prop :=
  trace after = (trace before ++ events)%list.

Definition scheduled (before after : state) (tasks : list (string * string)) : Prop :=
  background_tasks after = (background_tasks before ++ tasks)%list.

(** The collaborators called in a trace, in order. *)
Fixpoint calls (t : list event) : list string :=
  match t with
  | [] => []
  | Call name :: rest => name :: calls rest
  | _ :: rest => calls rest
  end.

(** What the specification says an extraction returns, given the client:
    the decoded reply when the reply is a non-empty text that decodes, and
    the empty mapping on an error, on an empty reply and on a reply that
    does not decode. *)
Definition extraction_result (W : World) (client : Mistral) (prompt : string) : json :=
  match chat_complete W client md_to_json.model prompt with
  | inr (Some text) =>
      if PyStr.truthy text then
        match json_loads W text with
        | inr j => j
        | inl _ => JDict []
        end
      else JDict []
  | inr None => JDict []
  | inl _ => JDict []
  end.

(** What an extraction leaves alone. *)
Definition same_request_state (s s' : state) : Prop :=
  _converter s' = _converter s /\
  background_tasks s' = background_tasks s /\
  temp_file_path s' = temp_file_path s.

(** The state in which a handler enters its [try] block. *)
Definition entered (s : state) : state :=
  mkstate (_mistral_client s) (_converter s) (S (clock s))
          (background_tasks s) None (trace s).

Definition healthy (configured : bool) : HealthResponse :=
  {| status := "healthy"; mistral_api_configured := configured |}.

(** A member of a JSON object. *)
Definition json_get (k : string) (j : json) : option json :=
  match j with
  | JDict d => lookup k d
  | _ => None
  end.

Fixpoint json_path (ks : list string) (j : json) : option json :=
  match ks with
  | [] => Some j
  | k :: rest =>
      match json_get k j with
      | Some v => json_path rest v
      | None => None
      end
  end.

(** An outcome as the handlers' contract has it: an envelope that reports
    success and carries a non-empty mapping and a processing time, or an
    HTTP error with status 400 or 500. *)
Definition envelope_or_http_error (r : exn + Response) : Prop :=
  match r with
  | inr env =>
      success env = true /\
      (exists d, data env = Some d /\ d <> []) /\
      (exists t, processing_time env = Some t)
  | inl (HTTPException c _) => c = 400 \/ c = 500
  | inl (PyException _) => False
  end.

End Props.

(* ===================================================================== *)
(** ** md_to_json.py: the command-line entry point *)
(* ===================================================================== *)

Module md_to_json_cli.

(** The parsed arguments: [input_file], [--output_file], [--report_type]. *)
Record Namespace := {
  input_file : string;
  output_file : option string;
  report_type : option string
}.

(** The files and the JSON printer the entry point uses. *)
Record Files := {
  (** [open(path, 'r', encoding='utf-8')] followed by [f.read()] *)
  read_text : string -> error + string;
  (** [open(path, 'w', encoding='utf-8')] followed by writing a text *)
  write_text : string -> string -> error + unit;
  (** [json.dumps(value, indent=4)], the text [json.dump] writes *)
  json_dumps : json -> string
}.

(** The process state, and the files written so far with their texts. *)
Record cli_state := mkcli {
  process : state;
  written : list (string * string)
}.

Definition C (A : Type) : Type := cli_state -> (exn + A) * cli_state.

Definition cret {A : Type} (a : A) : C A := fun cs => (inr a, cs).

Definition cbind {A B : Type} (m : C A) (f : A -> C B) : C B :=
  fun cs =>
    match m cs with
    | (inr a, cs') => f a cs'
    | (inl e, cs') => (inl e, cs')
    end.

(** A computation of the library part, run on the process state. *)
Definition run {A : Type} (m : M A) : C A :=
  fun cs =>
    match m (process cs) with
    | (r, s') => (r, mkcli s' (written cs))
    end.

Section WithWorld.

Variable W : World.
Variable F : Files.

Definition write (path text : string) : C unit :=
  fun cs =>
    match write_text F path text with
    | inr _ => (inr tt, mkcli (process cs) (written cs ++ [(path, text)]))
    | inl e => (inl (PyException e), cs)
    end.

Definition report_type_text (args : Namespace) : string :=
  match report_type args with Some t => t | None => "None" end.

Definition is_type (args : Namespace) (name : string) : bool :=
  match report_type args with
  | Some t => String.eqb t name
  | None => false
  end.

(** What [main] does with a truthy [json_output]. *)
Definition output (args : Namespace) (json_output : json) : C unit :=
  match output_file args with
  | Some (String _ _ as path) =>
      cbind (write path (json_dumps F json_output)) (fun _ =>
      run (log INFO ("Successfully created JSON output at " ++ path)))
  | _ => run (emit (Print (json_dumps F json_output)))
  end.

Definition main (args : Namespace) : C unit :=
  fun cs =>
    match read_text F (input_file args) with
    | inl e =>
        if String.eqb (error_class e) "FileNotFoundError" then
          run (log ERROR ("Input file not found: " ++ input_file args)) cs
        else (inl (PyException e), cs)
    | inr markdown_content =>
        let extraction :=
          if is_type args "ctscan" then
            Some (md_to_json.get_ctscan_json W markdown_content)
          else if is_type args "petct" then
            Some (md_to_json.get_petct_json W markdown_content)
          else if is_type args "mammogram" then
            Some (md_to_json.get_mammogram_json W markdown_content)
          else None in
        match extraction with
        | Some get_json =>
            cbind (run get_json) (fun json_output =>
              if json_truthy json_output then output args json_output
              else cret tt) cs
        | None =>
            run (log ERROR ("Unsupported report type: "
                            ++ report_type_text args)) cs
        end
    end.

End WithWorld.

End md_to_json_cli.

(* ===================================================================== *)
(** ** app.py: the welcome route and the start of the server *)
(* ===================================================================== *)

Module app_main.

Definition root : json :=
  JDict [("message",
          JStr ("Welcome to the Medical Report Processing API."
                ++ " Visit /docs for API documentation."))].

(** How the [__main__] block ends: [exit(code)], or the call of
    [uvicorn.run]. *)
Variant startup :=
| Exit (code : Z)
| Serve (application host : string) (port : Z) (reload : bool).

Definition main_block (W : World) : M startup :=
  match environ_MISTRAL_API_KEY W with
  | Some (String _ _) =>
      bind (log INFO "Starting Medical Report Processing API...") (fun _ =>
      ret (Serve "app:app" "0.0.0.0" 8002 true))
  | _ =>
      bind (log ERROR "MISTRAL_API_KEY environment variable not set!") (fun _ =>
      ret (Exit 1))
  end.

End app_main.

(* ===================================================================== *)
(** ** Further vocabulary *)
(* ===================================================================== *)

Module MoreProps.
Import app Props md_to_json_cli.

Definition cleanup_task (path : string) : string * string :=
  ("cleanup_temp_file", path).

(** The class name of a model. *)
Definition model_name (t : Pydantic.ftype) : string :=
  match t with
  | Pydantic.TModel cls _ => cls
  | _ => EmptyString
  end.

(** The value of [--report_type] that selects a report kind. *)
Definition type_option (k : report_kind) : string :=
  match k with
  | ctscan => "ctscan"
  | petct => "petct"
  | mammogram => "mammogram"
  end.

Definition known_type (t : option string) : bool :=
  match t with
  | Some s => String.eqb s "ctscan" || String.eqb s "petct"
              || String.eqb s "mammogram"
  | None => false
  end.

Fixpoint nodupb (l : list string) : bool :=
  match l with
  | [] => true
  | x :: rest => negb (existsb (String.eqb x) rest) && nodupb rest
  end.

Definition is_optional (t : Pydantic.ftype) : bool :=
  match t with Pydantic.TOptional _ => true | _ => false end.

(** The discipline the model classes of both files follow: within a class
    no field name is declared twice, a field that defaults to [None] is
    declared [Optional], and so is every float, whose infinities and NaN
    the response writes as [null]. *)
Fixpoint disciplined (t : Pydantic.ftype) : bool :=
  match t with
  | Pydantic.TFloat => false
  | Pydantic.TOptional Pydantic.TFloat => true
  | Pydantic.TOptional t' => disciplined t'
  | Pydantic.TList t' => disciplined t'
  | Pydantic.TModel _ fields =>
      nodupb (keys fields) &&
      forallb (fun f =>
                 disciplined (fst (snd f)) &&
                 match snd (snd f) with
                 | Pydantic.DefaultNone => is_optional (fst (snd f))
                 | Pydantic.Required => true
                 end) fields
  | _ => true
  end.

(** pydantic-core only produces dates of the calendar. *)
Definition lax_dates_are_valid (W : World) : Prop :=
  forall j d, lax_date W j = Some d -> PyDate.valid d = true.

(** All the models declared in the two files. *)
Definition declared_models : list Pydantic.ftype :=
  [ ct_models.Measurement; ct_models.Finding; ct_models.OrganSystem;
    ct_models.PETCTReport; ct_models.Lesion; ct_models.CTScanReport;
    mammo_models.Measurement; mammo_models.Finding;
    mammo_models.BreastComposition; mammo_models.MammogramReport ].

(** A world in which the temporary file cannot be created. *)
Definition no_temporary_file : World :=
  {| environ_MISTRAL_API_KEY := Some "sk-test";
     time_time := fun n => float_of_int (Z.of_nat n);
     NamedTemporaryFile := inl (mkerror "OSError" "No space left on device");
     temp_file_write := fun _ _ => inr tt;
     pdf_to_markdown_text := fun _ _ _ => inr "# CT abdomen";
     chat_complete := fun _ _ _ => inr (Some "{...}");
     json_loads := fun _ => inr (JDict Demo.minimal_ct);
     schema_text := fun cls => cls;
     lax_int := fun _ => None;
     lax_float := fun _ => None;
     lax_bool := fun _ => None;
     lax_date := fun _ => None;
     validation_error_text := fun _ => "validation error";
     unpack_error_text := fun _ _ => "argument after ** must be a mapping";
     format_2f := fun _ => "0.00";
     os_path_exists := fun _ => true;
     os_remove := fun _ => inr tt |}.

(** A world in which the generation service is down. *)
Definition service_down : World :=
  Demo.world (Some "sk-test") (inr "# CT abdomen")
    (inl (mkerror "SDKError" "Status 503")) (inr (JDict Demo.minimal_ct)).

(** Files for the command line: one input exists, writing works. *)
Definition demo_files : Files :=
  {| read_text := fun path =>
       if String.eqb path "report.md" then inr "# CT abdomen"
       else inl (mkerror "FileNotFoundError"
                   "[Errno 2] No such file or directory");
     write_text := fun _ _ => inr tt;
     json_dumps := fun j =>
       match j with JDict [] => "{}" | _ => "{ ... }" end |}.

Definition demo_args (input : string) (out rt : option string) : Namespace :=
  {| input_file := input; output_file := out; report_type := rt |}.

Definition cli_fresh : cli_state := mkcli Demo.fresh [].

End MoreProps.

(* ===================================================================== *)
(** ** Facts about the text operations *)
(* ===================================================================== *)

Module PyStrFacts.
Import PyStr.

Lemma endswith_iff (s suffix : string) :
  endswith s suffix = true <-> exists stem, s = stem ++ suffix.
Proof.
  induction s as [|c r IH]; cbn [endswith].
  - rewrite orb_false_r, String.eqb_eq. split.
    + intros <-. now exists EmptyString.
    + intros [stem H]. destruct stem; simpl in H; [auto | discriminate].
  - rewrite orb_true_iff, String.eqb_eq, IH. split.
    + intros [<- | [stem ->]].
      * now exists EmptyString.
      * now exists (String c stem).
    + intros [[|c' stem] H]; simpl in H.
      * now left.
      * right. injection H as _ ->. now exists stem.
Qed.

Lemma lower_app (a b : string) : lower (a ++ b) = lower a ++ lower b.
Proof. induction a as [|c a IH]; simpl; [reflexivity | now rewrite IH]. Qed.

Lemma lower_split (s a b : string) :
  lower s = a ++ b -> exists s1 s2, s = s1 ++ s2 /\ lower s1 = a /\ lower s2 = b.
Proof.
  revert s. induction a as [|c a IH]; intros s H; simpl in H.
  - exists EmptyString, s. auto.
  - destruct s as [|c' s']; simpl in H; [discriminate|].
    injection H as Hc Hs. destruct (IH _ Hs) as (s1 & s2 & -> & <- & <-).
    exists (String c' s1), s2. simpl. now rewrite Hc.
Qed.

Ltac by_cases_on_char c :=
  destruct c as [[] [] [] [] [] [] [] []]; vm_compute;
  intros; try discriminate; auto.

Lemma lower_char_dot c : lower_char c = "."%char -> c = "."%char.
Proof. by_cases_on_char c. Qed.

Lemma lower_char_p c : lower_char c = "p"%char -> c = "p"%char \/ c = "P"%char.
Proof. by_cases_on_char c. Qed.

Lemma lower_char_d c : lower_char c = "d"%char -> c = "d"%char \/ c = "D"%char.
Proof. by_cases_on_char c. Qed.

Lemma lower_char_f c : lower_char c = "f"%char -> c = "f"%char \/ c = "F"%char.
Proof. by_cases_on_char c. Qed.

(** The handlers' test on the name is the specification's: the name ends
    in [.pdf], whatever the case of its letters. *)
Lemma lower_endswith_pdf (s : string) :
  endswith (lower s) ".pdf" = true <-> pdf_suffix_ci s.
Proof.
  rewrite endswith_iff. split.
  - intros [stem H]. apply lower_split in H as (s1 & s2 & -> & _ & H2).
    destruct s2 as [|c0 [|c1 [|c2 [|c3 [|c4 r]]]]]; simpl in H2; try discriminate.
    injection H2 as H0 H1 H2 H3.
    apply lower_char_dot in H0 as ->.
    exists s1, c1, c2, c3. split; [reflexivity|].
    auto using lower_char_p, lower_char_d, lower_char_f.
  - intros (stem & c1 & c2 & c3 & -> & H1 & H2 & H3).
    exists (lower stem). rewrite lower_app. f_equal.
    destruct H1 as [-> | ->], H2 as [-> | ->], H3 as [-> | ->]; reflexivity.
Qed.

Lemma pdf_suffix_nonempty (s : string) : pdf_suffix_ci s -> truthy s = true.
Proof.
  intros (stem & c1 & c2 & c3 & -> & _). destruct stem; reflexivity.
Qed.

Lemma lstrip_head (s : string) c r : lstrip s = String c r -> isspace c = false.
Proof.
  induction s as [|c' s IH]; simpl; [discriminate|].
  destruct (isspace c') eqn:E; [exact IH|].
  intros [= <- _]. exact E.
Qed.

Lemma lstrip_empty (s : string) : lstrip s = EmptyString <-> whitespace_only s.
Proof.
  unfold whitespace_only. induction s as [|c s IH]; simpl.
  - split; [constructor | reflexivity].
  - destruct (isspace c) eqn:E.
    + rewrite IH. split; [now constructor | now inversion 1].
    + split; [discriminate | inversion 1; congruence].
Qed.

Lemma rstrip_empty (s : string) : rstrip s = EmptyString <-> whitespace_only s.
Proof.
  unfold whitespace_only. induction s as [|c s IH]; simpl.
  - split; [constructor | reflexivity].
  - destruct (rstrip s) eqn:R.
    + destruct (isspace c) eqn:E.
      * split; [intros _; constructor; [exact E | now apply IH] | reflexivity].
      * split; [discriminate | inversion 1; congruence].
    + split; [discriminate|]. inversion 1; subst.
      assert (String a s0 = EmptyString) by now apply IH. discriminate.
Qed.

(** [not markdown_text.strip()] holds exactly of the whitespace-only
    texts, the empty one among them. *)
Lemma strip_empty (s : string) : truthy (strip s) = false <-> whitespace_only s.
Proof.
  assert (T : forall x, truthy x = false <-> x = EmptyString)
    by (intros [|]; simpl; split; congruence).
  rewrite T. unfold strip. rewrite rstrip_empty. split.
  - intros H. apply lstrip_empty.
    destruct (lstrip s) eqn:L; [reflexivity|].
    apply lstrip_head in L. unfold whitespace_only in H. simpl in H.
    inversion H; congruence.
  - intros H. apply lstrip_empty in H. rewrite H. constructor.
Qed.

End PyStrFacts.

(* ===================================================================== *)
(** ** Facts about dates *)
(* ===================================================================== *)

Module PyDateFacts.
Import PyDate.

Lemma digit_inv c n : digit c = Some n -> 0 <= n <= 9 /\ digit_char n = c.
Proof.
  intros H. destruct c as [[] [] [] [] [] [] [] []]; vm_compute in H;
    try discriminate; injection H as <-; (split; [lia | reflexivity]).
Qed.

Lemma is_hyphen_inv c : is_hyphen c = true -> c = "-"%char.
Proof. apply Ascii.eqb_eq. Qed.

(** A date string that is accepted is the ISO format of its date: it is
    written back as it came. *)
Lemma isoformat_fromisoformat s d : fromisoformat s = Some d -> isoformat d = s.
Proof.
  unfold fromisoformat.
  destruct s as [|y1 [|y2 [|y3 [|y4 [|h1 [|m1 [|m2 [|h2 [|d1 [|d2 [|x r]]]]]]]]]]];
    try discriminate.
  destruct (digit y1) as [a|] eqn:E1; [|discriminate].
  destruct (digit y2) as [b|] eqn:E2; [|discriminate].
  destruct (digit y3) as [c|] eqn:E3; [|discriminate].
  destruct (digit y4) as [e|] eqn:E4; [|discriminate].
  destruct (digit m1) as [f|] eqn:E5; [|discriminate].
  destruct (digit m2) as [g|] eqn:E6; [|discriminate].
  destruct (digit d1) as [h|] eqn:E7; [|discriminate].
  destruct (digit d2) as [i|] eqn:E8; [|discriminate].
  set (r := mkdate _ _ _). intros H.
  destruct (is_hyphen h1 && is_hyphen h2 && valid r) eqn:V; [|discriminate].
  injection H as <-.
  apply andb_true_iff in V as [V _]. apply andb_true_iff in V as [H1 H2].
  apply is_hyphen_inv in H1, H2. subst h1 h2 r.
  apply digit_inv in E1 as [B1 <-], E2 as [B2 <-], E3 as [B3 <-], E4 as [B4 <-],
                     E5 as [B5 <-], E6 as [B6 <-], E7 as [B7 <-], E8 as [B8 <-].
  unfold isoformat, pad4, pad2. cbn [year month day].
  replace ((1000 * a + 100 * b + 10 * c + e) / 1000) with a
    by (Z.div_mod_to_equations; lia).
  replace ((1000 * a + 100 * b + 10 * c + e) / 100 mod 10) with b
    by (Z.div_mod_to_equations; lia).
  replace ((1000 * a + 100 * b + 10 * c + e) / 10 mod 10) with c
    by (Z.div_mod_to_equations; lia).
  replace ((1000 * a + 100 * b + 10 * c + e) mod 10) with e
    by (Z.div_mod_to_equations; lia).
  replace ((10 * f + g) / 10) with f by (Z.div_mod_to_equations; lia).
  replace ((10 * f + g) mod 10) with g by (Z.div_mod_to_equations; lia).
  replace ((10 * h + i) / 10) with h by (Z.div_mod_to_equations; lia).
  replace ((10 * h + i) mod 10) with i by (Z.div_mod_to_equations; lia).
  reflexivity.
Qed.

End PyDateFacts.

(* ===================================================================== *)
(** ** Facts about the singletons *)
(* ===================================================================== *)

Module Steps.
Import app Props.

Lemma get_converter_ok W s c :
  converter_for W s = Some c ->
  get_converter W s =
  (inr c, mkstate (_mistral_client s) (Some c) (clock s)
                  (background_tasks s) (temp_file_path s) (trace s)).
Proof.
  unfold converter_for, usable_key, get_converter. destruct s as [mc cv n bg tp tr].
  cbn. destruct cv as [c'|]; cbn.
  - now intros [= ->].
  - destruct (environ_MISTRAL_API_KEY W) as [k|]; cbn; [|discriminate].
    destruct (PyStr.truthy k); cbn; [|discriminate]. now intros [= <-].
Qed.

Lemma get_converter_missing W s :
  converter_for W s = None -> get_converter W s = (inl missing_key, s).
Proof.
  unfold converter_for, usable_key, get_converter. destruct s as [mc cv n bg tp tr].
  cbn. destruct cv as [c'|]; cbn; [discriminate|].
  destruct (environ_MISTRAL_API_KEY W) as [k|]; cbn; [|reflexivity].
  destruct (PyStr.truthy k); cbn; [discriminate | reflexivity].
Qed.

Lemma get_mistral_client_ok W s c :
  client_for W s = Some c ->
  md_to_json.get_mistral_client W s =
  (inr c, mkstate (Some c) (_converter s) (clock s)
                  (background_tasks s) (temp_file_path s) (trace s)).
Proof.
  unfold client_for, usable_key, md_to_json.get_mistral_client.
  destruct s as [mc cv n bg tp tr].
  cbn. destruct mc as [c'|]; cbn.
  - now intros [= ->].
  - destruct (environ_MISTRAL_API_KEY W) as [k|]; cbn; [|discriminate].
    destruct (PyStr.truthy k); cbn; [|discriminate]. now intros [= <-].
Qed.

Lemma get_mistral_client_missing W s :
  client_for W s = None ->
  md_to_json.get_mistral_client W s = (inl missing_key, s).
Proof.
  unfold client_for, usable_key, md_to_json.get_mistral_client.
  destruct s as [mc cv n bg tp tr].
  cbn. destruct mc as [c'|]; cbn; [discriminate|].
  destruct (environ_MISTRAL_API_KEY W) as [k|]; cbn; [|reflexivity].
  destruct (PyStr.truthy k); cbn; [discriminate | reflexivity].
Qed.

Lemma calls_app (a b : list event) : calls (a ++ b) = (calls a ++ calls b)%list.
Proof.
  induction a as [|[] a IH]; cbn; [reflexivity | exact IH | exact IH | now rewrite IH].
Qed.

Lemma is_pdf_upload_iff file :
  is_pdf_upload file = true <->
  exists name, filename file = Some name /\ PyStr.pdf_suffix_ci name.
Proof.
  unfold is_pdf_upload. destruct (filename file) as [name|].
  - rewrite andb_true_iff, PyStrFacts.lower_endswith_pdf. split.
    + intros [_ H]. eauto.
    + intros (n & [= <-] & H). auto using PyStrFacts.pdf_suffix_nonempty.
  - split; [discriminate | intros (n & H & _); discriminate].
Qed.

(** With a client at hand an extraction returns, and returns what the
    specification says; it touches neither the converter nor the tasks,
    and the only call it records is its own. *)
Lemma extract_ok W name title prompt s client :
  client_for W s = Some client ->
  exists s',
    md_to_json.extract W name title prompt s
      = (inr (extraction_result W client prompt), s') /\
    _mistral_client s' = Some client /\
    same_request_state s s' /\
    calls (trace s') = (calls (trace s) ++ [name])%list.
Proof.
  intros Hc. unfold md_to_json.extract, extraction_result, try_except, bind.
  cbn -[md_to_json.get_mistral_client].
  erewrite get_mistral_client_ok by exact Hc. cbn.
  unfold same_request_state.
  destruct (chat_complete W client md_to_json.model prompt) as [e | [[|c text] |]]; cbn.
  1-2, 4: eexists; split; [reflexivity|]; cbn;
          rewrite !calls_app; cbn; rewrite ?app_nil_r; auto.
  destruct (json_loads W (String c text)) as [e | j]; cbn;
    eexists; (split; [reflexivity|]); cbn;
    rewrite !calls_app; cbn; rewrite ?app_nil_r; auto.
Qed.

(** Without one it raises the configuration error, before anything else. *)
Lemma extract_missing W name title prompt s :
  client_for W s = None ->
  exists s',
    md_to_json.extract W name title prompt s = (inl missing_key, s') /\
    _mistral_client s' = _mistral_client s /\
    same_request_state s s' /\
    calls (trace s') = (calls (trace s) ++ [name])%list.
Proof.
  intros Hc. unfold md_to_json.extract, bind.
  cbn -[md_to_json.get_mistral_client].
  rewrite get_mistral_client_missing by exact Hc.
  eexists. split; [reflexivity|]. unfold same_request_state. cbn.
  rewrite calls_app. auto.
Qed.

Lemma get_converter_cases W s :
  (exists c s', get_converter W s = (inr c, s')) \/
  (exists s', get_converter W s = (inl missing_key, s')).
Proof.
  destruct (converter_for W s) as [c|] eqn:E.
  - left. rewrite (get_converter_ok W s c E). eauto.
  - right. rewrite (get_converter_missing W s E). eauto.
Qed.

Lemma extract_cases W name title prompt s :
  (exists j s', md_to_json.extract W name title prompt s = (inr j, s')) \/
  (exists s', md_to_json.extract W name title prompt s = (inl missing_key, s')).
Proof.
  destruct (client_for W s) as [c|] eqn:E.
  - left. destruct (extract_ok W name title prompt s c E) as (s' & -> & _). eauto.
  - right. destruct (extract_missing W name title prompt s E) as (s' & -> & _). eauto.
Qed.

Lemma report_model_fields k :
  exists cls f fs, report_model k = Pydantic.TModel cls (f :: fs).
Proof. destruct k; do 3 eexists; reflexivity. Qed.

Lemma response_class_eq k : response_class k = new_Response.
Proof. destruct k; reflexivity. Qed.

Lemma get_json_unfold W k markdown :
  get_json W k markdown =
  md_to_json.extract W (extractor_name k) (title k) (prompt W k markdown).
Proof. destruct k; reflexivity. Qed.

End Steps.

(* ===================================================================== *)
(** ** Facts about validation *)
(* ===================================================================== *)

Module PydanticFacts.
Import Pydantic.

Lemma both_inr {A B : Type} (r : vresult A) (rs : vresult (list B)) (f : A -> B) out :
  both r rs f = inr out ->
  exists v vs, r = inr v /\ rs = inr vs /\ out = f v :: vs.
Proof.
  destruct r as [e|v], rs as [es|vs]; cbn; try discriminate.
  intros [= <-]. eauto.
Qed.

Lemma both_inl_l {A B : Type} (e : list verror) (rs : vresult (list B)) (f : A -> B) :
  exists es, both (inl e) rs f = inl es.
Proof. destruct rs; cbn; eauto. Qed.

Lemma both_inl_r {A B : Type} (r : vresult A) (es : list verror) (f : A -> B) :
  exists es', both r (inl es : vresult (list B)) f = inl es'.
Proof. destruct r; cbn; eauto. Qed.

(** An instance has exactly the declared fields, in order. *)
Lemma validate_fields_keys f d fs attrs :
  validate_fields f d fs = inr attrs -> keys attrs = keys fs.
Proof.
  revert attrs. induction fs as [|[name [ty p]] rest IH]; cbn; intros attrs H.
  - now injection H as <-.
  - apply both_inr in H as (v & vs & _ & Hrest & ->). cbn. f_equal. now apply IH.
Qed.

Lemma validate_model_inr W cls fs j v :
  validate W (TModel cls fs) j = inr v ->
  exists d attrs,
    j = JDict d /\ v = PObject cls attrs /\
    validate_fields (validate W) d fs = inr attrs.
Proof.
  cbn. destruct j; try discriminate.
  destruct (validate_fields (validate W) entries fs) as [es|attrs] eqn:E;
    [discriminate|].
  intros [= <-]. eauto.
Qed.

(** A mapping that lacks a required field fails validation. *)
Lemma missing_required_field_fails f d fs name ty :
  In (name, (ty, Required)) fs -> lookup name d = None ->
  exists errors, validate_fields f d fs = inl errors.
Proof.
  induction fs as [|[name' [ty' p']] rest IH]; intros Hin Hd; [destruct Hin|].
  cbn. destruct Hin as [[= -> -> ->] | Hin].
  - rewrite Hd. apply both_inl_l.
  - destruct (IH Hin Hd) as [es ->]. apply both_inl_r.
Qed.

Lemma model_missing_required_field_fails W cls fs d name ty :
  In (name, (ty, Required)) fs -> lookup name d = None ->
  exists errors, validate W (TModel cls fs) (JDict d) = inl errors.
Proof.
  intros Hin Hd. cbn.
  destruct (missing_required_field_fails (validate W) d fs name ty Hin Hd) as [es ->].
  eauto.
Qed.

Lemma keys_map {A B : Type} (g : A -> B) (d : list (string * A)) :
  keys (map (fun kv => (fst kv, g (snd kv))) d) = keys d.
Proof. unfold keys. rewrite map_map. reflexivity. Qed.

(** Induction on field types, with the hypothesis at every field of a
    model. *)
Lemma ftype_nested_ind (P : ftype -> Prop) :
  P TStr -> P TInt -> P TFloat -> P TBool -> P TDate ->
  (forall t, P t -> P (TOptional t)) ->
  (forall t, P t -> P (TList t)) ->
  (forall cls fs, Forall (fun f => P (fst (snd f))) fs -> P (TModel cls fs)) ->
  forall t, P t.
Proof.
  intros Hs Hi Hf Hb Hd Ho Hl Hm. fix IH 1. intros [| | | | | t | t | cls fs].
  - exact Hs.
  - exact Hi.
  - exact Hf.
  - exact Hb.
  - exact Hd.
  - apply Ho, IH.
  - apply Hl, IH.
  - apply Hm. induction fs as [|[name [t p]] fs IHfs]; constructor.
    + apply IH.
    + exact IHfs.
Qed.

Lemma at_loc_inr {A : Type} l (r : vresult A) v : at_loc l r = inr v -> r = inr v.
Proof. destruct r; cbn; congruence. Qed.

Lemma or_lax_inr {A : Type} (o : option A) wrap msg v :
  or_lax o wrap msg = inr v -> exists a, o = Some a /\ v = wrap a.
Proof. destruct o; cbn; [intros [= <-]; eauto | discriminate]. Qed.

(** A valid list is valid item by item. *)
Lemma validate_items_inr f i l vs :
  validate_items f i l = inr vs -> Forall2 (fun j v => f j = inr v) l vs.
Proof.
  revert i vs. induction l as [|j l IH]; cbn; intros i vs H.
  - injection H as <-. constructor.
  - apply both_inr in H as (v & vs' & Hv & Hrest & ->).
    constructor; [now apply at_loc_inr in Hv | eauto].
Qed.

End PydanticFacts.

(* ===================================================================== *)
(** ** Validation followed by [model_dump] *)
(* ===================================================================== *)

Module RoundTrip.
Import Pydantic Props PydanticFacts.

(** Whatever validation accepts, its dump is the input up to coercions,
    unknown keys and defaults. *)
Lemma validate_then_dump W t :
  forall j v, validate W t j = inr v ->
              round_trip W WithDefaults t j (model_dump v).
Proof.
  induction t as [| | | | | t IH | t IH | cls fs IH] using ftype_nested_ind;
    intros j v H.
  - destruct j; cbn in H; try discriminate. injection H as <-. constructor.
  - destruct j; cbn [validate validate_int] in H;
      try (apply or_lax_inr in H as (x & Hx & ->); now apply rt_int_coerced).
    injection H as <-. constructor.
  - destruct j; cbn [validate validate_float] in H;
      try (apply or_lax_inr in H as (x & Hx & ->); now apply rt_float_coerced).
    + destruct (float_is_finite (float_of_int n)) eqn:F; [|discriminate].
      injection H as <-. now constructor.
    + injection H as <-. constructor.
  - destruct j; cbn [validate validate_bool] in H;
      try (apply or_lax_inr in H as (x & Hx & ->); now apply rt_bool_coerced).
    injection H as <-. constructor.
  - destruct j; cbn [validate validate_date] in H;
      try (apply or_lax_inr in H as (x & Hx & ->); now apply rt_date_coerced).
    destruct (PyDate.fromisoformat s) as [d|] eqn:E.
    + injection H as <-. now apply rt_date.
    + apply or_lax_inr in H as (x & Hx & ->). now apply rt_date_coerced.
  - destruct j; cbn [validate] in H;
      try (apply rt_optional; [discriminate | now apply IH]).
    injection H as <-. constructor.
  - destruct j; cbn [validate] in H; try discriminate.
    destruct (validate_items (validate W t) 0 items) as [es|vs] eqn:E;
      [discriminate|]. injection H as <-.
    apply validate_items_inr in E. cbn. constructor.
    induction E as [|j v js vs Hv _ IHE]; cbn; constructor; auto.
  - apply validate_model_inr in H as (d & attrs & -> & -> & H). cbn.
    constructor. revert attrs H.
    induction IH as [|[name [t p]] fs Ht _ IHfs]; cbn; intros attrs H.
    + injection H as <-. constructor.
    + apply both_inr in H as (v & vs & Hv & Hrest & ->). cbn.
      destruct (lookup name d) as [j|] eqn:L.
      * apply at_loc_inr in Hv. apply rtf_present with j; auto.
      * destruct p; [discriminate|]. injection Hv as <-.
        apply rtf_default; auto.
Qed.

Lemma lookup_unique {A : Type} name (j : A) (d : list (string * A)) :
  NoDup (keys d) -> In (name, j) d -> lookup name d = Some j.
Proof.
  induction d as [|[k v] d IH]; cbn; intros Hnd Hin; [destruct Hin|].
  inversion Hnd as [|? ? Hk Hd]; subst.
  destruct Hin as [[= -> ->] | Hin].
  - now rewrite String.eqb_refl.
  - destruct (String.eqb_spec name k) as [->|_]; [|auto].
    destruct Hk. now apply (in_map fst) in Hin.
Qed.

Lemma plain_fields_keys fs d : plain_fields fs d -> keys d = keys fs.
Proof. induction 1; cbn; [reflexivity | now f_equal]. Qed.

(** A plain value is accepted, and the JSON form of its dump is the value
    itself: validation and dump change nothing in it. *)
Lemma plain_round_trip W t :
  forall j, plain t j ->
            exists v, validate W t j = inr v /\ dumped_json v = j.
Proof.
  unfold dumped_json.
  induction t as [| | | | | t IH | t IH | cls fs IH] using ftype_nested_ind;
    intros j Hp; inversion Hp; subst.
  - eexists. split; reflexivity.
  - eexists. split; reflexivity.
  - eexists. split; [reflexivity|]. cbn.
    match goal with H : float_is_finite _ = true |- _ => now rewrite H end.
  - eexists. split; reflexivity.
  - match goal with H : PyDate.fromisoformat _ = Some _ |- _ =>
      cbn; rewrite H; eexists; split; [reflexivity|]; cbn; f_equal;
      now apply PyDateFacts.isoformat_fromisoformat
    end.
  - exists PNone. split; reflexivity.
  - match goal with H : plain t j |- _ => destruct (IH j H) as (v & Hv & Hj) end.
    exists v. split; [|exact Hj]. destruct j; try exact Hv. contradiction.
  - match goal with H : Forall (plain t) _ |- _ => rename H into Hall end.
    clear Hp.
    assert (forall i, exists vs,
               validate_items (validate W t) i js = inr vs /\
               map (fun v => app.to_jsonable (model_dump v)) vs = js) as Hitems.
    { induction Hall as [|j js Hj _ IHall]; intros i; cbn.
      - exists []. split; reflexivity.
      - destruct (IH j Hj) as (v & -> & Ev). destruct (IHall (S i)) as (vs & -> & Evs).
        exists (v :: vs). cbn. split; [reflexivity | now rewrite Ev, Evs]. }
    destruct (Hitems 0%nat) as (vs & Hvs & Evs).
    exists (PList vs). cbn [validate]. rewrite Hvs. split; [reflexivity|].
    cbn. rewrite map_map. now rewrite Evs.
  - match goal with H : plain_fields fs d |- _ => rename H into Hf end.
    match goal with H : NoDup (keys fs) |- _ => rename H into Hnd end.
    rewrite <- (plain_fields_keys _ _ Hf) in Hnd.
    assert (forall fs' d', plain_fields fs' d' ->
              Forall (fun f => forall j, plain (fst (snd f)) j ->
                        exists v, validate W (fst (snd f)) j = inr v /\
                                  app.to_jsonable (model_dump v) = j) fs' ->
              (forall name j, In (name, j) d' -> lookup name d = Some j) ->
              exists attrs,
                validate_fields (validate W) d fs' = inr attrs /\
                map (fun kv => (fst kv, app.to_jsonable (model_dump (snd kv)))) attrs
                  = d') as Hfields.
    { induction 1 as [|name t p fs' j d' Hj _ IHf]; intros Hall Hin; cbn.
      - exists []. split; reflexivity.
      - inversion Hall as [|? ? Ht Hrest]; subst. cbn in Ht.
        rewrite (Hin name j (or_introl eq_refl)).
        destruct (Ht j Hj) as (v & -> & Ev).
        destruct (IHf Hrest (fun n x H => Hin n x (or_intror H))) as (attrs & -> & Ea).
        exists ((name, v) :: attrs). cbn. split; [reflexivity | now rewrite Ev, Ea]. }
    destruct (Hfields fs d Hf IH (fun name j => lookup_unique name j d Hnd))
      as (attrs & Ha & Ea).
    exists (PObject cls attrs). cbn [validate]. rewrite Ha. split; [reflexivity|].
    cbn. rewrite map_map. cbn. now rewrite Ea.
Qed.

Ltac no_duplicate_keys :=
  repeat (constructor; [cbn; intuition discriminate|]); constructor.

Ltac show_plain :=
  repeat match goal with
         | |- plain TDate _ => eapply pl_date; reflexivity
         | |- plain (TModel _ _) _ => apply pl_model; [no_duplicate_keys|]
         | |- plain (TOptional _) JNull => apply pl_null
         | |- plain (TOptional _) _ => apply pl_optional; [discriminate|]
         | |- plain TFloat _ => apply pl_float; reflexivity
         | |- plain _ _ => constructor
         | |- plain_fields _ _ => constructor
         | |- Forall _ _ => constructor
         end.

Lemma full_ct_is_plain : plain ct_models.CTScanReport (JDict Demo.full_ct).
Proof.
  cbv [ct_models.CTScanReport ct_models.Lesion field Demo.full_ct]. show_plain.
Qed.

(** The full CT-scan mapping comes back as it is. *)
Lemma full_ct_round_trip W :
  exists report,
    validate W ct_models.CTScanReport (JDict Demo.full_ct) = inr report /\
    dumped_json report = JDict Demo.full_ct.
Proof. exact (plain_round_trip W _ _ full_ct_is_plain). Qed.

Lemma lookup_in_keys {A : Type} k (d : list (string * A)) v :
  lookup k d = Some v -> In k (keys d).
Proof.
  induction d as [|[k' v'] d IH]; cbn; [discriminate|].
  destruct (String.eqb_spec k k') as [->|_]; [now left | right; auto].
Qed.

(** Read as stated, the round trip never adds a key. *)
Lemma as_stated_adds_no_key W fs d out :
  round_trip_fields W AsStated fs d out ->
  forall k, In k (keys out) -> In k (keys d).
Proof.
  induction 1 as [| name t p fs d j v out L _ _ IH | name t p fs d out _ _ _ IH
                  | name t fs d out E _ _ _]; intros k Hk.
  - destruct Hk.
  - destruct Hk as [<- | Hk]; [eapply lookup_in_keys; eauto | auto].
  - auto.
  - discriminate.
Qed.

(** A mapping of the kind the round trip is about is accepted by the
    model. *)
Lemma well_typed_is_accepted W t :
  forall j, well_typed W t j -> exists v, validate W t j = inr v.
Proof.
  induction t as [| | | | | t IH | t IH | cls fs IH] using ftype_nested_ind;
    intros j Hw; inversion Hw; subst.
  - eexists. reflexivity.
  - eexists. reflexivity.
  - match goal with H : lax_int W _ = Some _ |- _ =>
      destruct j; cbn [validate validate_int]; rewrite ?H; cbn; eauto
    end.
  - eexists. reflexivity.
  - match goal with H : float_is_finite _ = true |- _ =>
      cbn [validate validate_float]; rewrite H; eauto
    end.
  - match goal with H : lax_float W _ = Some _ |- _ =>
      destruct j; cbn [validate validate_float]; rewrite ?H; cbn; eauto
    end.
    match goal with H : app.type_name _ <> _ |- _ => now destruct H end.
  - eexists. reflexivity.
  - match goal with H : lax_bool W _ = Some _ |- _ =>
      destruct j; cbn [validate validate_bool]; rewrite ?H; cbn; eauto
    end.
  - match goal with H : PyDate.fromisoformat _ = Some _ |- _ =>
      cbn [validate validate_date]; rewrite H; eauto
    end.
  - match goal with H : lax_date W _ = Some _ |- _ =>
      destruct j; cbn [validate validate_date]; rewrite ?H; cbn; eauto;
      destruct (PyDate.fromisoformat s); rewrite ?H; cbn; eauto
    end.
  - exists PNone. reflexivity.
  - match goal with H : well_typed W t j |- _ => destruct (IH j H) as (v & Hv) end.
    destruct j; cbn [validate]; eauto.
  - match goal with H : Forall (well_typed W t) _ |- _ => rename H into Hall end.
    clear Hw.
    assert (forall i, exists vs, validate_items (validate W t) i js = inr vs)
      as Hitems.
    { induction Hall as [|j js Hj _ IHall]; intros i; cbn.
      - exists []. reflexivity.
      - destruct (IH j Hj) as (v & ->). destruct (IHall (S i)) as (vs & ->).
        cbn. eauto. }
    destruct (Hitems 0%nat) as (vs & Hvs).
    exists (PList vs). cbn [validate]. now rewrite Hvs.
  - match goal with H : supplies W fs d |- _ => rename H into Hs end.
    clear Hw.
    assert (exists attrs, validate_fields (validate W) d fs = inr attrs)
      as (attrs & Ha).
    { induction Hs as [d | name t p fs d j L Hj _ IHs | name t fs d L _ IHs]; cbn.
      - exists []. reflexivity.
      - inversion IH as [|? ? Ht Hrest]; subst. cbn in Ht. rewrite L.
        destruct (Ht j Hj) as (v & ->). destruct (IHs Hrest) as (attrs & ->).
        cbn. eauto.
      - inversion IH as [|? ? _ Hrest]; subst. rewrite L.
        destruct (IHs Hrest) as (attrs & ->). cbn. eauto. }
    exists (PObject cls attrs). cbn [validate]. now rewrite Ha.
Qed.

Ltac show_well_typed :=
  repeat match goal with
         | |- well_typed _ TDate (JStr _) => eapply wt_date; reflexivity
         | |- well_typed _ TInt (JStr _) => eapply wt_int_coerced; reflexivity
         | |- well_typed _ (TModel _ _) _ => apply wt_model
         | |- well_typed _ (TOptional _) JNull => apply wt_null
         | |- well_typed _ (TOptional _) _ => apply wt_optional
         | |- well_typed _ (TList _) _ => apply wt_list
         | |- well_typed _ _ _ => constructor
         | |- supplies _ [] _ => apply sup_nil
         | |- supplies _ _ _ =>
             first [ eapply sup_present; [reflexivity| |]
                   | apply sup_absent; [reflexivity|] ]
         | |- Forall _ _ => constructor
         end.

Lemma mammogram_with_string_score_is_well_typed :
  well_typed (Demo.working JNull) mammo_models.MammogramReport
    (JDict Demo.mammogram_with_string_score).
Proof.
  cbv [mammo_models.MammogramReport mammo_models.BreastComposition
       mammo_models.Finding mammo_models.Measurement field
       Demo.mammogram_with_string_score].
  show_well_typed.
Defined.

Lemma minimal_ct_is_well_typed W :
  well_typed W ct_models.CTScanReport (JDict Demo.minimal_ct).
Proof.
  cbv [ct_models.CTScanReport ct_models.Lesion field Demo.minimal_ct].
  show_well_typed.
Qed.

(** A value of another type in an optional field makes the model reject
    the mapping, even though every required field is supplied. *)
Lemma optional_field_of_another_type_is_rejected :
  validate (Demo.working JNull) ct_models.CTScanReport
    (JDict Demo.ct_with_worded_count)
  = inl [([LKey "lymph_nodes_detected"], "Input should be a valid integer")].
Proof. reflexivity. Qed.

(** An integer beyond the range of a float is no valid number, whatever
    the lax conversions are. *)
Lemma integer_beyond_float_range_is_rejected W :
  validate W ct_models.CTScanReport (JDict Demo.ct_with_overflowing_length)
  = inl [([LKey "lesions"; LIndex 0; LKey "max_length_cm"],
          "Input should be a valid number")].
Proof. vm_compute. reflexivity. Qed.

(** C8, as amended.  For each report kind and every mapping that supplies
    every required field, and whose fields have values of the declared
    types up to the schema's coercions, the typed report is constructed,
    and dumping it gives a mapping with the fields of the schema, in which
    every field supplied by the input has the input's value up to the
    schema's coercions, every optional field the input lacks is [None],
    and no other key remains; the same holds inside nested models and
    lists. *)
Theorem report_dump_is_input_up_to_coercion_and_defaults W k d :
  well_typed W (app.report_model k) (JDict d) ->
  exists report out,
    validate W (app.report_model k) (JDict d) = inr report /\
    model_dump report = PDict out /\
    keys out = keys (model_fields (app.report_model k)) /\
    round_trip W WithDefaults (app.report_model k) (JDict d) (PDict out).
Proof.
  intros Hw. destruct (well_typed_is_accepted W _ _ Hw) as (report & H).
  exists report. pose proof (validate_then_dump W _ _ _ H) as R.
  pose proof H as H'.
  destruct k; cbn [app.report_model] in *;
    apply validate_model_inr in H' as (d' & attrs & _ & -> & Hf);
    apply validate_fields_keys in Hf; cbn [model_dump] in *;
    (eexists; split; [exact H|]; split; [reflexivity|]; split; [|exact R]);
    rewrite keys_map; exact Hf.
Qed.

Lemma report_dump_is_input_up_to_coercion_and_defaults_witness :
  exists report out,
    validate (Demo.working JNull) mammo_models.MammogramReport
      (JDict Demo.mammogram_with_string_score) = inr report /\
    model_dump report = PDict out /\
    lookup "birads_score" out = Some (PInt 4) /\
    lookup "impression" out = Some PNone /\
    lookup "referring_physician" out = None /\
    round_trip (Demo.working JNull) WithDefaults mammo_models.MammogramReport
      (JDict Demo.mammogram_with_string_score) (PDict out).
Proof.
  destruct (report_dump_is_input_up_to_coercion_and_defaults
              (Demo.working JNull) app.mammogram
              Demo.mammogram_with_string_score
              mammogram_with_string_score_is_well_typed)
    as (report & out & Hval & Hdump & _ & R).
  exists report, out. split; [exact Hval|]. split; [exact Hdump|].
  cbn [app.report_model] in Hval. vm_compute in Hval. injection Hval as <-.
  vm_compute in Hdump. injection Hdump as <-.
  repeat split. exact R.
Defined.

(** C8, as stated, fails: the minimal CT-scan mapping supplies every
    required field with a value of the declared type, and the dump of its
    report has the key [lymph_nodes_detected], with value [None], which the
    input does not have; that is neither a coercion nor the removal of a
    key. *)
Lemma dump_adds_absent_optional_fields :
  well_typed (Demo.working JNull) ct_models.CTScanReport (JDict Demo.minimal_ct) /\
  exists report out,
    validate (Demo.working JNull) ct_models.CTScanReport (JDict Demo.minimal_ct)
      = inr report /\
    model_dump report = PDict out /\
    lookup "lymph_nodes_detected" Demo.minimal_ct = None /\
    lookup "lymph_nodes_detected" out = Some PNone /\
    ~ round_trip (Demo.working JNull) AsStated ct_models.CTScanReport
        (JDict Demo.minimal_ct) (PDict out).
Proof.
  split; [apply minimal_ct_is_well_typed|].
  eexists _, _. split; [reflexivity|]. split; [reflexivity|].
  split; [reflexivity|]. split; [reflexivity|].
  intros R. inversion R as [| | | | | | | | | | | | | cls fs d out F]; subst.
  apply as_stated_adds_no_key with (k := "lymph_nodes_detected") in F.
  - cbn in F. repeat (destruct F as [F | F]; [discriminate|]). exact F.
  - cbn. do 7 right. now left.
Qed.

End RoundTrip.

(* ===================================================================== *)
(** ** The extraction operations *)
(* ===================================================================== *)

Module Extraction.
Import app Props Steps.

(** C3, as amended.  In a state where the client is cached or the
    credential is set to a non-empty value, each of the three extraction
    operations returns without raising: the empty mapping when the service
    call raises, when the reply is absent or empty, and when the reply does
    not decode; and a non-empty mapping only as the decoding of a non-empty
    reply. *)
Theorem extraction_returns_when_client_available W k markdown s client :
  client_for W s = Some client ->
  exists j s',
    get_json W k markdown s = (inr j, s') /\
    (forall e, chat_complete W client md_to_json.model (prompt W k markdown) = inl e ->
               j = JDict []) /\
    (chat_complete W client md_to_json.model (prompt W k markdown) = inr None ->
     j = JDict []) /\
    (chat_complete W client md_to_json.model (prompt W k markdown)
       = inr (Some EmptyString) -> j = JDict []) /\
    (forall text e,
        chat_complete W client md_to_json.model (prompt W k markdown)
          = inr (Some text) ->
        json_loads W text = inl e -> j = JDict []) /\
    (forall d, j = JDict d -> d <> [] ->
       exists text,
         chat_complete W client md_to_json.model (prompt W k markdown)
           = inr (Some text) /\
         text <> EmptyString /\ json_loads W text = inr j).
Proof.
  intros Hc. rewrite get_json_unfold.
  destruct (extract_ok W (extractor_name k) (title k) (prompt W k markdown) s client Hc)
    as (s' & -> & _).
  exists (extraction_result W client (prompt W k markdown)), s'.
  split; [reflexivity|]. unfold extraction_result.
  destruct (chat_complete W client md_to_json.model (prompt W k markdown))
    as [e | [[|c rest] |]]; cbn.
  - repeat split; try discriminate; auto. intros d [= <-] Hd. now destruct Hd.
  - repeat split; try discriminate; auto. intros d [= <-] Hd. now destruct Hd.
  - destruct (json_loads W (String c rest)) as [e | j] eqn:Hj.
    + repeat split; try discriminate; auto. intros d [= <-] Hd. now destruct Hd.
    + repeat split; try discriminate.
      * intros text e [= <-]. congruence.
      * intros d -> Hd. exists (String c rest). repeat split; [discriminate | exact Hj].
  - repeat split; try discriminate; auto. intros d [= <-] Hd. now destruct Hd.
Qed.

Lemma extraction_returns_when_client_available_witness :
  client_for (Demo.working (JDict Demo.minimal_ct)) Demo.fresh
    = Some {| mistral_api_key := "sk-test" |} /\
  exists j s',
    get_json (Demo.working (JDict Demo.minimal_ct)) ctscan "# CT abdomen" Demo.fresh
      = (inr j, s') /\ j = JDict Demo.minimal_ct.
Proof.
  split; [reflexivity|].
  destruct (extraction_returns_when_client_available
              (Demo.working (JDict Demo.minimal_ct)) ctscan "# CT abdomen"
              Demo.fresh {| mistral_api_key := "sk-test" |} eq_refl)
    as (j & s' & Hrun & _ & _ & _ & _ & _).
  exists j, s'. split; [exact Hrun|].
  vm_compute in Hrun. now injection Hrun as <- _.
Defined.

(** C3, as stated, fails: with the credential unset and no client cached,
    each extraction operation raises the configuration error to its
    caller. *)
Lemma extraction_raises_without_credential :
  fst (md_to_json.get_ctscan_json Demo.unconfigured "# CT abdomen" Demo.fresh)
    = inl missing_key /\
  fst (md_to_json.get_petct_json Demo.unconfigured "# PET" Demo.fresh)
    = inl missing_key /\
  fst (md_to_json.get_mammogram_json Demo.unconfigured "# Mammo" Demo.fresh)
    = inl missing_key.
Proof. repeat split; reflexivity. Qed.

(** A reply that does not decode gives the empty mapping. *)
Lemma undecodable_reply_gives_empty_mapping :
  fst (md_to_json.get_petct_json
         (Demo.world (Some "sk-test") (inr "# PET") (inr (Some "not json"))
                     (inl Demo.json_error))
         "# PET" Demo.fresh) = inr (JDict []).
Proof. reflexivity. Qed.

(** In general: with neither a cached client nor a usable credential, the
    operation raises before the service is contacted. *)
Lemma extraction_raises_when_client_unavailable W k markdown s :
  client_for W s = None ->
  exists s', get_json W k markdown s = (inl missing_key, s').
Proof.
  intros Hc. rewrite get_json_unfold.
  destruct (extract_missing W (extractor_name k) (title k) (prompt W k markdown) s Hc)
    as (s' & -> & _).
  now exists s'.
Qed.

End Extraction.

(* ===================================================================== *)
(** ** The health check *)
(* ===================================================================== *)

Module Health.
Import app Props Steps.

(** C9, as amended.  With the credential unset the health check returns
    [mistral_api_configured = false] and changes nothing; with the
    credential set to a non-empty value it goes through both singleton
    accessors, so that both clients exist when it reports
    [mistral_api_configured = true]. *)
Theorem health_check_reports_configuration W s :
  (environ_MISTRAL_API_KEY W = None ->
   health_check W s = (inr (healthy false), s)) /\
  (forall key, environ_MISTRAL_API_KEY W = Some key -> key <> EmptyString ->
     exists s',
       health_check W s = (inr (healthy true), s') /\
       _mistral_client s' <> None /\ _converter s' <> None /\
       (_mistral_client s = None -> _mistral_client s' = Some (Build_Mistral key)) /\
       (_converter s = None -> _converter s' = Some (Build_MarkdownConverter key))).
Proof.
  split.
  - intros E. unfold health_check, try_except, bind. rewrite E. reflexivity.
  - intros key E Hkey.
    assert (T : PyStr.truthy key = true) by (destruct key; [now destruct Hkey | reflexivity]).
    unfold health_check, try_except, bind. rewrite E, T.
    destruct s as [mc cv n bg tp tr].
    unfold md_to_json.get_mistral_client, get_converter, bind. cbn.
    rewrite E, T.
    destruct mc, cv; cbn; eexists; (split; [reflexivity|]); cbn;
      repeat split; congruence.
Qed.

Lemma health_check_reports_configuration_witness :
  health_check Demo.unconfigured Demo.fresh = (inr (healthy false), Demo.fresh) /\
  exists s',
    health_check (Demo.working JNull) Demo.fresh = (inr (healthy true), s') /\
    _mistral_client s' <> None /\ _converter s' <> None.
Proof.
  split.
  - apply (proj1 (health_check_reports_configuration Demo.unconfigured Demo.fresh)).
    reflexivity.
  - destruct (proj2 (health_check_reports_configuration (Demo.working JNull) Demo.fresh)
                "sk-test" eq_refl) as (s' & H1 & H2 & H3 & _).
    + discriminate.
    + exists s'. auto.
Defined.

(** C9, as stated, fails when the variable is set to the empty string: the
    health check then reports [false] and builds neither client. *)
Lemma health_check_skips_clients_on_empty_credential :
  environ_MISTRAL_API_KEY Demo.empty_credential = Some EmptyString /\
  health_check Demo.empty_credential Demo.fresh
    = (inr (healthy false), Demo.fresh) /\
  _mistral_client Demo.fresh = None /\ _converter Demo.fresh = None.
Proof. repeat split. Qed.

End Health.

(* ===================================================================== *)
(** ** The report handlers *)
(* ===================================================================== *)

Module Handlers.
Import app Props Steps.

(** The concrete runs used below. *)
Lemma scan_pdf_is_a_pdf_name : PyStr.pdf_suffix_ci "scan.pdf".
Proof. exists "scan", "p"%char, "d"%char, "f"%char. repeat split; now left. Defined.

Lemma demo_stored env markdown reply decoded :
  stored (Demo.world env markdown reply decoded) (Demo.upload "scan.pdf")
    "/tmp/tmpk3v9.pdf".
Proof.
  split; [exists "scan.pdf"; split; [reflexivity | exact scan_pdf_is_a_pdf_name]|].
  split; [reflexivity|]. exists []. split; reflexivity.
Defined.

Lemma demo_converted markdown reply decoded :
  converted (Demo.world (Some "sk-test") (inr markdown) reply decoded)
    (Demo.upload "scan.pdf") Demo.fresh "/tmp/tmpk3v9.pdf" markdown.
Proof.
  split; [apply demo_stored|].
  exists {| converter_api_key := "sk-test" |}. split; reflexivity.
Defined.

Lemma demo_extracted k j :
  extracted (Demo.working j) k (Demo.upload "scan.pdf") Demo.fresh
    "/tmp/tmpk3v9.pdf" j.
Proof.
  exists "# CT abdomen", {| mistral_api_key := "sk-test" |}, "{...}".
  split; [apply demo_converted|].
  split; [intros H; inversion H; discriminate|].
  repeat split. discriminate.
Defined.

(** C5.  An upload whose name does not end in [.pdf], whatever the case
    of the letters (or that has no name), is answered with a 400 before
    anything else happens: the trace is unchanged, so neither the
    conversion nor the extraction was called, and nothing is scheduled. *)
Theorem non_pdf_upload_is_rejected_first W k file st :
  (forall name, filename file = Some name -> ~ PyStr.pdf_suffix_ci name) ->
  exists st',
    process_report W k file st =
      (inl (HTTPException 400 "Only PDF files are supported"), st') /\
    added st st' [] /\ scheduled st st' [] /\
    _mistral_client st' = _mistral_client st /\
    _converter st' = _converter st.
Proof.
  intros H.
  assert (E : is_pdf_upload file = false).
  { destruct (is_pdf_upload file) eqn:E; [|reflexivity].
    apply is_pdf_upload_iff in E as (name & Hn & Hs). now destruct (H name Hn). }
  unfold process_report, process_body, try_except, bind. cbn.
  rewrite E. cbn.
  eexists. split; [reflexivity|]. unfold added, scheduled. cbn.
  rewrite !app_nil_r. auto.
Qed.

Lemma non_pdf_upload_is_rejected_first_witness :
  exists st',
    process_report (Demo.working JNull) petct (Demo.upload "notes.txt") Demo.fresh
      = (inl (HTTPException 400 "Only PDF files are supported"), st') /\
    trace st' = [].
Proof.
  destruct (non_pdf_upload_is_rejected_first (Demo.working JNull) petct
              (Demo.upload "notes.txt") Demo.fresh) as (st' & H & Ha & _).
  - intros name [= <-] Hs. apply PyStrFacts.lower_endswith_pdf in Hs. discriminate.
  - exists st'. split; [exact H | exact Ha].
Defined.

(** C6.  When the conversion gives an empty or whitespace-only text, the
    handler raises a 400, and the only collaborator it has called is the
    conversion: the extraction is not invoked and no client is built for
    it. *)
Theorem blank_conversion_is_rejected_without_extraction W k file st path markdown :
  converted W file st path markdown ->
  PyStr.whitespace_only markdown ->
  exists st',
    process_report W k file st =
      (inl (HTTPException 400 "Failed to extract text from PDF"), st') /\
    calls (trace st') = (calls (trace st) ++ ["pdf_to_markdown_text"])%list /\
    _mistral_client st' = _mistral_client st.
Proof.
  intros (((name & Hname & Hpdf) & Htmp & content & Hread & Hwrite)
          & converter & Hconv & Hmd) Hblank.
  assert (E : is_pdf_upload file = true) by (apply is_pdf_upload_iff; eauto).
  apply PyStrFacts.strip_empty in Hblank.
  unfold process_report, process_body, try_except, bind.
  cbn -[get_converter]. rewrite E. cbn -[get_converter].
  rewrite Htmp. cbn -[get_converter]. rewrite Hread. cbn -[get_converter].
  rewrite Hwrite. cbn -[get_converter].
  erewrite get_converter_ok by exact Hconv. cbn.
  rewrite Hmd. cbn. rewrite Hblank. cbn.
  eexists. split; [reflexivity|]. cbn. split; [|reflexivity].
  rewrite !calls_app. cbn. now rewrite app_nil_r.
Qed.

Lemma blank_conversion_is_rejected_without_extraction_witness :
  exists st',
    process_report Demo.blank_conversion mammogram (Demo.upload "scan.pdf") Demo.fresh
      = (inl (HTTPException 400 "Failed to extract text from PDF"), st') /\
    calls (trace st') = ["pdf_to_markdown_text"].
Proof.
  destruct (blank_conversion_is_rejected_without_extraction
              Demo.blank_conversion mammogram (Demo.upload "scan.pdf") Demo.fresh
              "/tmp/tmpk3v9.pdf" "  ") as (st' & H & Hc & _).
  - apply demo_converted.
  - repeat constructor.
  - exists st'. split; [exact H | exact Hc].
Defined.

(** Running a handler up to the end of the extraction step: [Hconv] says
    what the conversion gave, [Hblank] that it is not blank, [Hclient]
    which client the extraction finds.  The extraction result is left as
    [extraction_result]. *)
Ltac run_to_extraction_result Hconv Hblank Hclient :=
  let E := fresh "E" in let T := fresh "T" in
  destruct Hconv as (((name & Hname & Hpdf) & Htmp & content & Hread & Hwrite)
                     & converter & Hcv0 & Hmd);
  assert (E : is_pdf_upload _ = true) by (apply is_pdf_upload_iff; eauto);
  match type of Hmd with
  | _ = inr ?markdown =>
      assert (T : PyStr.truthy (PyStr.strip markdown) = true)
        by (destruct (PyStr.truthy (PyStr.strip markdown)) eqn:T';
            [reflexivity | apply PyStrFacts.strip_empty in T'; now destruct Hblank])
  end;
  unfold process_ctscan_report, process_petct_report, process_mammogram_report,
    process_report, process_body, try_except, bind;
  rewrite response_class_eq;
  cbn -[get_converter get_json Pydantic.validate]; rewrite E;
  cbn -[get_converter get_json Pydantic.validate]; rewrite Htmp;
  cbn -[get_converter get_json Pydantic.validate]; rewrite Hread;
  cbn -[get_converter get_json Pydantic.validate]; rewrite Hwrite;
  cbn -[get_converter get_json Pydantic.validate];
  erewrite get_converter_ok by exact Hcv0;
  cbn -[get_json Pydantic.validate]; rewrite Hmd;
  cbn -[get_json Pydantic.validate]; rewrite T;
  cbn -[get_json Pydantic.validate]; rewrite get_json_unfold;
  match goal with
  | |- context [md_to_json.extract ?W ?n ?t ?p ?s] =>
      let s1 := fresh "s1" in
      destruct (extract_ok W n t p s _ Hclient)
        as (s1 & -> & Hmc & Hsame & Hcalls);
      destruct Hsame as (Hcv & Hbg & Htp)
  end;
  repeat match goal with
         | H : context [mkstate] |- _ =>
             progress (cbn [_mistral_client _converter clock background_tasks
                            temp_file_path trace] in H;
                       rewrite ?calls_app, ?app_nil_r in H;
                       cbn [calls app] in H)
         end.

(** The same from the facts gathered in [extracted], which fix the
    extraction result. *)
Ltac run_to_extraction Hext :=
  let markdown := fresh "markdown" in
  let client := fresh "client" in let text := fresh "text" in
  destruct Hext as (markdown & client & text & Hconv & Hblank & Hclient
                    & Hchat & Htext & Hloads);
  run_to_extraction_result Hconv Hblank Hclient;
  match goal with
  | |- context [extraction_result ?W client ?p] =>
      replace (extraction_result W client p) with
        (match json_loads W text with inr j => j | inl _ => JDict [] end)
        by (unfold extraction_result; rewrite Hchat;
            destruct text; [now destruct Htext | reflexivity])
  end;
  rewrite Hloads.

(** The two client-error exits taken once the upload is stored schedule
    nothing: the temporary file is known and no cleanup is asked for. *)
Lemma blank_conversion_schedules_nothing W k file st path markdown :
  converted W file st path markdown ->
  PyStr.whitespace_only markdown ->
  exists st',
    process_report W k file st =
      (inl (HTTPException 400 "Failed to extract text from PDF"), st') /\
    temp_file_path st' = Some path /\ scheduled st st' [].
Proof.
  intros (((name & Hname & Hpdf) & Htmp & content & Hread & Hwrite)
          & converter & Hconv & Hmd) Hblank.
  assert (E : is_pdf_upload file = true) by (apply is_pdf_upload_iff; eauto).
  apply PyStrFacts.strip_empty in Hblank.
  unfold process_report, process_body, try_except, bind.
  cbn -[get_converter]. rewrite E. cbn -[get_converter].
  rewrite Htmp. cbn -[get_converter]. rewrite Hread. cbn -[get_converter].
  rewrite Hwrite. cbn -[get_converter].
  erewrite get_converter_ok by exact Hconv. cbn.
  rewrite Hmd. cbn. rewrite Hblank. cbn.
  eexists. split; [reflexivity|]. unfold scheduled. cbn.
  now rewrite app_nil_r.
Qed.

Lemma empty_extraction_schedules_nothing W k file st path markdown client :
  converted W file st path markdown ->
  ~ PyStr.whitespace_only markdown ->
  client_for W st = Some client ->
  json_truthy (extraction_result W client (prompt W k markdown)) = false ->
  exists st',
    process_report W k file st =
      (inl (HTTPException 400 "Failed to extract structured data from document"),
       st') /\
    temp_file_path st' = Some path /\ scheduled st st' [].
Proof.
  intros Hconv Hblank Hclient Hfalse.
  run_to_extraction_result Hconv Hblank Hclient.
  rewrite Hfalse. cbn.
  eexists. split; [reflexivity|]. unfold scheduled. cbn.
  rewrite Hbg, app_nil_r. auto.
Qed.

(** The fallback of the validation step: a non-empty mapping that the
    report model rejects is logged about and returned as it is. *)
Lemma rejected_mapping_is_returned W k file st path d errors :
  extracted W k file st path (JDict d) ->
  d <> [] ->
  Pydantic.validate W (report_model k) (JDict d) = inl errors ->
  exists env st',
    process_report W k file st = (inr env, st') /\
    success env = true /\
    option_map PDict (data env) = Some (of_json (JDict d)) /\
    In (Log WARNING ("Data validation warning for " ++ title k ++ ": "
                     ++ validation_error_text W errors)) (trace st') /\
    scheduled st st' [("cleanup_temp_file", path)].
Proof.
  intros Hext Hd Hval. run_to_extraction Hext.
  destruct d as [|kv d]; [now destruct Hd|].
  cbn -[Pydantic.validate]. rewrite Hval. cbn.
  eexists _, _. split; [reflexivity|]. unfold scheduled. cbn.
  rewrite Hbg. repeat split.
  apply in_or_app. left. apply in_or_app. right. now left.
Qed.



(** In particular a mapping that lacks a required field of the report
    model is returned as it is. *)
Lemma missing_required_field_is_passed_through W k file st path d name ty :
  extracted W k file st path (JDict d) ->
  d <> [] ->
  In (name, (ty, Pydantic.Required)) (Pydantic.model_fields (report_model k)) ->
  lookup name d = None ->
  exists env st',
    process_report W k file st = (inr env, st') /\
    success env = true /\
    option_map PDict (data env) = Some (of_json (JDict d)).
Proof.
  intros Hext Hd Hin Hl.
  destruct (report_model_fields k) as (cls & f & fs & Hk).
  rewrite Hk in Hin. cbn [Pydantic.model_fields] in Hin.
  destruct (PydanticFacts.model_missing_required_field_fails W cls _ d name ty Hin Hl)
    as (errors & Hval).
  rewrite <- Hk in Hval.
  destruct (rejected_mapping_is_returned W k file st path d errors
              Hext Hd Hval) as (env & st' & H1 & H2 & H3 & _).
  eauto.
Qed.

(** So is a CT-scan mapping in which a length is an integer beyond the
    range of a float: the model rejects it, the warning is logged and the
    mapping is returned as extracted. *)
Lemma overflowing_number_is_passed_through W file st path :
  extracted W ctscan file st path (JDict Demo.ct_with_overflowing_length) ->
  exists env st',
    process_ctscan_report W file st = (inr env, st') /\
    success env = true /\
    option_map PDict (data env)
      = Some (of_json (JDict Demo.ct_with_overflowing_length)) /\
    In (Log WARNING
          ("Data validation warning for CT Scan: "
           ++ validation_error_text W
                [([LKey "lesions"; LIndex 0; LKey "max_length_cm"],
                  "Input should be a valid number")]))
       (trace st').
Proof.
  intros Hext.
  destruct (rejected_mapping_is_returned W ctscan file st path
              Demo.ct_with_overflowing_length _ Hext ltac:(discriminate)
              (RoundTrip.integer_beyond_float_range_is_rejected W))
    as (env & st' & Hrun & Hs & Hdata & Hlog & _).
  exists env, st'. repeat split; assumption.
Qed.

(** When the extraction result is a non-empty mapping that the report
    model accepts, the handler returns the dump of the typed report and
    schedules the cleanup once. *)
Lemma valid_extraction_is_canonicalised W k file st path d report :
  extracted W k file st path (JDict d) ->
  d <> [] ->
  Pydantic.validate W (report_model k) (JDict d) = inr report ->
  exists env st',
    process_report W k file st = (inr env, st') /\
    success env = true /\
    option_map PDict (data env) = Some (Pydantic.model_dump report) /\
    scheduled st st' [("cleanup_temp_file", path)] /\
    calls (trace st') =
      (calls (trace st) ++ ["pdf_to_markdown_text"; extractor_name k])%list.
Proof.
  intros Hext Hd Hval. run_to_extraction Hext.
  destruct d as [|kv d]; [now destruct Hd|].
  cbn -[Pydantic.validate]. rewrite Hval.
  assert (exists cls attrs, report = PObject cls attrs) as (cls & attrs & ->).
  { destruct k; apply PydanticFacts.validate_model_inr in Hval
      as (? & attrs & _ & -> & _); eauto. }
  cbn. eexists _, _. split; [reflexivity|]. unfold scheduled. cbn.
  rewrite Hbg, !calls_app, Hcalls. cbn. rewrite <- !app_assoc. auto.
Qed.

(** When the extraction result is plain for the report model, the data of
    the response body is the extracted mapping, unchanged. *)
Lemma plain_extraction_is_returned_unchanged W k file st path d :
  extracted W k file st path (JDict d) ->
  plain (report_model k) (JDict d) ->
  exists env st',
    process_report W k file st = (inr env, st') /\
    json_path ["data"] (body (respond (inr env))) = Some (JDict d).
Proof.
  intros Hext Hp.
  destruct (RoundTrip.plain_round_trip W _ _ Hp) as (report & Hval & Hj).
  assert (Hd : d <> []).
  { intros ->. destruct k; inversion Hp as [| | | | | | | |? ? ? _ Hf]; inversion Hf. }
  destruct (valid_extraction_is_canonicalised W k file st path d report Hext Hd Hval)
    as (env & st' & Hrun & _ & Hdata & _).
  exists env, st'. split; [exact Hrun|].
  destruct env as [sc msg [dd|] pt]; cbn in Hdata; [|discriminate].
  injection Hdata as Hdata. unfold dumped_json in Hj. rewrite <- Hdata in Hj.
  cbn. now rewrite <- Hj.
Qed.

(** C7.  When the extraction step yields the minimal CT-scan mapping of
    the specification, the CT-scan handler returns an envelope with
    [success = true] whose [date_of_test] is the date 2024-01-15, and the
    response body reads [success: true] and
    [data.date_of_test = "2024-01-15"]. *)
Theorem minimal_ct_extraction_keeps_its_date W file st path :
  extracted W ctscan file st path (JDict Demo.minimal_ct) ->
  exists env st',
    process_ctscan_report W file st = (inr env, st') /\
    success env = true /\
    (exists d, data env = Some d /\
               lookup "date_of_test" d = Some (PDate (PyDate.mkdate 2024 1 15))) /\
    status_code (respond (inr env)) = 200 /\
    json_path ["success"] (body (respond (inr env))) = Some (JBool true) /\
    json_path ["data"; "date_of_test"] (body (respond (inr env)))
      = Some (JStr "2024-01-15").
Proof.
  intros Hext.
  destruct (valid_extraction_is_canonicalised W ctscan file st path Demo.minimal_ct
              _ Hext ltac:(discriminate) eq_refl)
    as (env & st' & Hrun & Hs & Hdata & _).
  exists env, st'. split; [exact Hrun|]. split; [exact Hs|].
  destruct env as [sc msg [dd|] pt]; cbn in Hs, Hdata; [|discriminate].
  injection Hdata as ->. subst sc. repeat split. eexists. split; reflexivity.
Qed.

Lemma minimal_ct_extraction_keeps_its_date_witness :
  exists env st',
    process_ctscan_report (Demo.working (JDict Demo.minimal_ct))
      (Demo.upload "scan.pdf") Demo.fresh = (inr env, st') /\
    json_path ["data"; "date_of_test"] (body (respond (inr env)))
      = Some (JStr "2024-01-15").
Proof.
  destruct (minimal_ct_extraction_keeps_its_date
              (Demo.working (JDict Demo.minimal_ct)) (Demo.upload "scan.pdf")
              Demo.fresh "/tmp/tmpk3v9.pdf" (demo_extracted ctscan _))
    as (env & st' & H & _ & _ & _ & _ & Hd).
  exists env, st'. split; assumption.
Defined.

(** The deferred cleanup never raises: a failure to remove the file is
    logged. *)
Lemma cleanup_temp_file_never_raises W file_path s :
  exists s', cleanup_temp_file W file_path s = (inr tt, s').
Proof.
  unfold cleanup_temp_file, try_except, bind.
  destruct (os_path_exists W file_path); cbn; [|eexists; reflexivity].
  destruct (os_remove W file_path) as [e|[]]; cbn; eexists; reflexivity.
Qed.

(** The [except] clauses: an [HTTPException] goes through as it is; any
    other exception becomes a 500 whose detail ends with the exception's
    text, after the cleanup is scheduled if the temporary file exists. *)
Lemma process_except_http k file c d s :
  process_except k file (HTTPException c d) s = (inl (HTTPException c d), s).
Proof. reflexivity. Qed.

Lemma process_except_error k file e s :
  exists s',
    process_except k file (PyException e) s =
      (inl (HTTPException 500 ("Internal server error: " ++ error_text e)), s') /\
    scheduled s s' (match temp_file_path s with
                    | Some path => [("cleanup_temp_file", path)]
                    | None => []
                    end) /\
    calls (trace s') = calls (trace s).
Proof.
  unfold process_except, bind, scheduled. cbn.
  destruct (temp_file_path s) as [path|]; cbn;
    (eexists; split; [reflexivity|]); cbn;
    rewrite calls_app, ?app_nil_r; cbn; rewrite ?app_nil_r; auto.
Qed.

(** What the [try] block of a handler can do: return a well-formed
    envelope, raise a 400, or raise an ordinary exception. *)
Lemma process_body_outcome W k file t0 s :
  match fst (process_body W k file t0 s) with
  | inr env => envelope_or_http_error (inr env)
  | inl (HTTPException c _) => c = 400
  | inl (PyException _) => True
  end.
Proof.
  unfold process_body, try_except, bind. rewrite response_class_eq.
  cbn -[get_converter get_json Pydantic.validate].
  destruct (is_pdf_upload file); cbn -[get_converter get_json Pydantic.validate];
    [|reflexivity].
  destruct (NamedTemporaryFile W) as [e|path];
    cbn -[get_converter get_json Pydantic.validate]; [exact I|].
  destruct (file_read file) as [e|content];
    cbn -[get_converter get_json Pydantic.validate]; [exact I|].
  destruct (temp_file_write W path content) as [e|[]];
    cbn -[get_converter get_json Pydantic.validate]; [exact I|].
  match goal with
  | |- context [get_converter W ?s] =>
      destruct (get_converter_cases W s) as [(c & s1 & ->) | (s1 & ->)]
  end; cbn -[get_json Pydantic.validate]; [|exact I].
  destruct (pdf_to_markdown_text W path c false) as [e|markdown];
    cbn -[get_json Pydantic.validate]; [exact I|].
  destruct (PyStr.truthy (PyStr.strip markdown));
    cbn -[get_json Pydantic.validate]; [|reflexivity].
  rewrite get_json_unfold.
  match goal with
  | |- context [md_to_json.extract W ?n ?t ?p ?s] =>
      destruct (extract_cases W n t p s) as [(j & s2 & ->) | (s2 & ->)]
  end; cbn -[Pydantic.validate]; [|exact I].
  destruct (json_truthy j) eqn:Hj; cbn -[Pydantic.validate]; [|reflexivity].
  destruct j as [| b | n | f | t | l | d]; cbn -[Pydantic.validate];
    try exact I; try discriminate.
  destruct d as [|kv d]; [discriminate|].
  destruct (Pydantic.validate W (report_model k) (JDict (kv :: d)))
    as [errors|report] eqn:Hval; cbn.
  - repeat split; eauto. eexists. split; [reflexivity | discriminate].
  - destruct (report_model_fields k) as (cls & f & fs & Hk). rewrite Hk in Hval.
    apply PydanticFacts.validate_model_inr in Hval as (d' & attrs & _ & -> & Hf).
    apply PydanticFacts.validate_fields_keys in Hf.
    destruct attrs as [|a attrs]; [discriminate|].
    cbn. repeat split; eauto. eexists. split; [reflexivity | discriminate].
Qed.

Lemma process_report_unfold W k file st :
  process_report W k file st =
  match process_body W k file (time_time W (clock st)) (entered st) with
  | (inl e, s) => process_except k file e s
  | (inr env, s) => (inr env, s)
  end.
Proof. reflexivity. Qed.

(** C10.  A report handler either returns an envelope with
    [success = true], a non-empty data mapping and a processing time, or
    raises an HTTP error with status 400 or 500; it never returns an
    envelope with [success = false], and nothing else escapes it. *)
Theorem handlers_return_success_or_raise_http W k file st :
  envelope_or_http_error (fst (process_report W k file st)).
Proof.
  rewrite process_report_unfold.
  pose proof (process_body_outcome W k file (time_time W (clock st)) (entered st)) as H.
  destruct (process_body W k file (time_time W (clock st)) (entered st))
    as [[[c d | e] | env] s]; cbn [fst] in H.
  - rewrite process_except_http. cbn. now left.
  - destruct (process_except_error k file e s) as (s' & -> & _). cbn. now right.
  - exact H.
Qed.

(** C4, as amended.  When the [try] block of a handler raises an ordinary
    exception, the handler raises an HTTP 500 whose detail is the fixed
    prefix [Internal server error: ] followed by the text of that
    exception, and that detail is the body sent. *)
Theorem unexpected_error_becomes_500_with_its_text W k file st e s1 :
  process_body W k file (time_time W (clock st)) (entered st)
    = (inl (PyException e), s1) ->
  exists st',
    process_report W k file st =
      (inl (HTTPException 500 ("Internal server error: " ++ error_text e)), st') /\
    respond (fst (process_report W k file st)) =
      {| status_code := 500;
         body := JDict [("detail",
                         JStr ("Internal server error: " ++ error_text e))] |}.
Proof.
  intros Hbody. rewrite process_report_unfold, Hbody.
  destruct (process_except_error k file e s1) as (s' & -> & _).
  exists s'. split; reflexivity.
Qed.

Lemma unexpected_error_becomes_500_with_its_text_witness :
  exists st',
    process_report (Demo.failing_conversion "connection refused") ctscan
      (Demo.upload "scan.pdf") Demo.fresh =
      (inl (HTTPException 500 "Internal server error: connection refused"), st').
Proof.
  destruct (unexpected_error_becomes_500_with_its_text
              (Demo.failing_conversion "connection refused") ctscan
              (Demo.upload "scan.pdf") Demo.fresh
              (mkerror "RuntimeError" "connection refused") _ eq_refl)
    as (st' & H & _).
  exists st'. exact H.
Defined.

(** Conversely, a 500 raised by a handler always has that form. *)
Lemma every_500_carries_an_exception_text W k file st d st' :
  process_report W k file st = (inl (HTTPException 500 d), st') ->
  exists e s1,
    process_body W k file (time_time W (clock st)) (entered st)
      = (inl (PyException e), s1) /\
    d = "Internal server error: " ++ error_text e.
Proof.
  rewrite process_report_unfold.
  pose proof (process_body_outcome W k file (time_time W (clock st)) (entered st)) as H.
  destruct (process_body W k file (time_time W (clock st)) (entered st))
    as [[[c d' | e] | env] s]; cbn [fst] in H.
  - rewrite process_except_http. intros [= -> _ _]. discriminate.
  - destruct (process_except_error k file e s) as (s' & -> & _).
    intros [= <- _]. eauto.
  - discriminate.
Qed.

(** C4, as stated, fails: the body of a 500 is not a generic message, it
    carries the text of the exception, here that of a failed conversion. *)
Lemma server_error_detail_exposes_exception_text :
  respond (fst (process_ctscan_report
                  (Demo.failing_conversion "connect to 10.0.0.7:443 refused")
                  (Demo.upload "scan.pdf") Demo.fresh)) =
    {| status_code := 500;
       body := JDict [("detail",
                       JStr "Internal server error: connect to 10.0.0.7:443 refused")] |}
  /\
  respond (fst (process_ctscan_report
                  (Demo.failing_conversion "connect to 10.0.0.7:443 refused")
                  (Demo.upload "scan.pdf") Demo.fresh)) <>
  respond (fst (process_ctscan_report
                  (Demo.failing_conversion "No space left on device: /var/tmp")
                  (Demo.upload "scan.pdf") Demo.fresh)).
Proof. split; [reflexivity | discriminate]. Qed.

(** C2 fails on the code.  On the two client-error exits taken after the
    temporary file exists (blank conversion output, empty extraction
    result) no cleanup is scheduled; and when the extraction result is not
    a mapping the cleanup is scheduled twice. *)
Theorem cleanup_is_not_scheduled_once_on_every_exit :
  (fst (process_ctscan_report Demo.blank_conversion (Demo.upload "scan.pdf") Demo.fresh)
     = inl (HTTPException 400 "Failed to extract text from PDF") /\
   temp_file_path
     (snd (process_ctscan_report Demo.blank_conversion (Demo.upload "scan.pdf") Demo.fresh))
     = Some "/tmp/tmpk3v9.pdf" /\
   background_tasks
     (snd (process_ctscan_report Demo.blank_conversion (Demo.upload "scan.pdf") Demo.fresh))
     = []) /\
  (fst (process_ctscan_report (Demo.working (JDict [])) (Demo.upload "scan.pdf") Demo.fresh)
     = inl (HTTPException 400 "Failed to extract structured data from document") /\
   temp_file_path
     (snd (process_ctscan_report (Demo.working (JDict [])) (Demo.upload "scan.pdf") Demo.fresh))
     = Some "/tmp/tmpk3v9.pdf" /\
   background_tasks
     (snd (process_ctscan_report (Demo.working (JDict [])) (Demo.upload "scan.pdf") Demo.fresh))
     = []) /\
  (fst (process_ctscan_report (Demo.working (JList [JInt 1])) (Demo.upload "scan.pdf")
          Demo.fresh)
     = inl (HTTPException 500 "Internal server error: Input should be a valid dictionary") /\
   background_tasks
     (snd (process_ctscan_report (Demo.working (JList [JInt 1])) (Demo.upload "scan.pdf")
             Demo.fresh))
     = [("cleanup_temp_file", "/tmp/tmpk3v9.pdf");
        ("cleanup_temp_file", "/tmp/tmpk3v9.pdf")]).
Proof. repeat split. Qed.

End Handlers.

(* ===================================================================== *)
(** ** The singletons, the cleanup task and the start of the server *)
(* ===================================================================== *)

Module Singletons.
Import app Props Steps MoreProps.

(** X1.  Once [get_mistral_client] has returned a client, every later call
    returns that same client and changes nothing, whatever the environment
    has become: the key is read only when the first client is built. *)
Theorem mistral_client_is_built_once W s c s1 :
  md_to_json.get_mistral_client W s = (inr c, s1) ->
  forall W', md_to_json.get_mistral_client W' s1 = (inr c, s1).
Proof.
  intros H W'.
  assert (Hc : _mistral_client s1 = Some c).
  { destruct (client_for W s) as [c'|] eqn:E.
    - rewrite (get_mistral_client_ok W s c' E) in H. now injection H as <- <-.
    - rewrite (get_mistral_client_missing W s E) in H. discriminate. }
  unfold md_to_json.get_mistral_client, bind, read. rewrite Hc. reflexivity.
Qed.

Lemma mistral_client_is_built_once_witness :
  exists s1,
    md_to_json.get_mistral_client (Demo.working JNull) Demo.fresh
      = (inr {| mistral_api_key := "sk-test" |}, s1) /\
    md_to_json.get_mistral_client Demo.unconfigured s1
      = (inr {| mistral_api_key := "sk-test" |}, s1).
Proof.
  eexists. split; [vm_compute; reflexivity|].
  exact (mistral_client_is_built_once (Demo.working JNull) Demo.fresh _ _ eq_refl
           Demo.unconfigured).
Defined.

(** X2.  The same holds of [get_converter]. *)
Theorem converter_is_built_once W s c s1 :
  get_converter W s = (inr c, s1) ->
  forall W', get_converter W' s1 = (inr c, s1).
Proof.
  intros H W'.
  assert (Hc : _converter s1 = Some c).
  { destruct (converter_for W s) as [c'|] eqn:E.
    - rewrite (get_converter_ok W s c' E) in H. now injection H as <- <-.
    - rewrite (get_converter_missing W s E) in H. discriminate. }
  unfold get_converter, bind, read. rewrite Hc. reflexivity.
Qed.

Lemma converter_is_built_once_witness :
  exists s1,
    get_converter (Demo.working JNull) Demo.fresh
      = (inr {| converter_api_key := "sk-test" |}, s1) /\
    get_converter Demo.empty_credential s1
      = (inr {| converter_api_key := "sk-test" |}, s1).
Proof.
  eexists. split; [vm_compute; reflexivity|].
  exact (converter_is_built_once (Demo.working JNull) Demo.fresh _ _ eq_refl
           Demo.empty_credential).
Defined.

(** X3.  The cleanup task always returns: it logs one record when the
    file exists (the removal, or its failure with the error's text) and
    nothing when it does not, and it touches neither the clients nor the
    scheduled tasks. *)
Theorem cleanup_temp_file_only_logs W file_path s :
  exists s',
    cleanup_temp_file W file_path s = (inr tt, s') /\
    _mistral_client s' = _mistral_client s /\
    _converter s' = _converter s /\
    background_tasks s' = background_tasks s /\
    trace s' =
      (trace s ++
       if os_path_exists W file_path then
         match os_remove W file_path with
         | inr _ => [Log INFO ("Cleaned up temporary file: " ++ file_path)]
         | inl e => [Log ERROR ("Failed to cleanup temporary file " ++ file_path
                                ++ ": " ++ error_text e)]
         end
       else [])%list.
Proof.
  unfold cleanup_temp_file, try_except, bind.
  destruct (os_path_exists W file_path); cbn.
  - destruct (os_remove W file_path) as [e|[]]; cbn;
      (eexists; split; [reflexivity|]); cbn; auto.
  - eexists. split; [reflexivity|]. rewrite app_nil_r. auto.
Qed.

(** X4.  The health check is idempotent: run again in the state it left,
    it gives the same answer and changes nothing. *)
Theorem health_check_is_idempotent W s :
  health_check W (snd (health_check W s)) = health_check W s.
Proof.
  unfold health_check, md_to_json.get_mistral_client, get_converter,
    try_except, bind, read.
  destruct s as [mc cv n bg tp tr]. cbn.
  destruct (environ_MISTRAL_API_KEY W) as [[|a key]|] eqn:E; cbn;
    try reflexivity.
  destruct mc, cv; cbn; rewrite ?E; reflexivity.
Qed.

(** X5.  The guard of the [__main__] block and the health check read the
    credential alike: the block goes on to serve exactly when the health
    check reports [mistral_api_configured = true], and exits with code 1
    exactly when it reports [false]. *)
Theorem startup_guard_agrees_with_health_check W s s' :
  (fst (app_main.main_block W s)
     = inr (app_main.Serve "app:app" "0.0.0.0" 8002 true) /\
   fst (health_check W s') = inr (healthy true)) \/
  (fst (app_main.main_block W s) = inr (app_main.Exit 1) /\
   fst (health_check W s') = inr (healthy false)).
Proof.
  unfold app_main.main_block, health_check, md_to_json.get_mistral_client,
    get_converter, try_except, bind, read.
  destruct s' as [mc cv n bg tp tr].
  destruct (environ_MISTRAL_API_KEY W) as [[|a key]|] eqn:E; cbn;
    try (right; split; reflexivity).
  left. split; [reflexivity|]. destruct mc, cv; cbn; rewrite ?E; reflexivity.
Qed.

End Singletons.

(* ===================================================================== *)
(** ** What a report handler leaves behind *)
(* ===================================================================== *)

Module Effects.
Import app Props Steps MoreProps.

(** The [try] block, from a state in which [temp_file_path] is [None]:
    cached clients stay; either nothing is scheduled and the block has
    raised, or the temporary file exists, its cleanup is scheduled once,
    and the block has returned or has raised an ordinary exception. *)
Lemma process_body_effects W k file t0 s :
  temp_file_path s = None ->
  forall r s1, process_body W k file t0 s = (r, s1) ->
    (forall c, _converter s = Some c -> _converter s1 = Some c) /\
    (forall m, _mistral_client s = Some m -> _mistral_client s1 = Some m) /\
    ((background_tasks s1 = background_tasks s /\
      (temp_file_path s1 = None \/
       exists path, NamedTemporaryFile W = inr path /\
                    temp_file_path s1 = Some path) /\
      exists e, r = inl e)
     \/
     (exists path,
        NamedTemporaryFile W = inr path /\
        temp_file_path s1 = Some path /\
        background_tasks s1 = (background_tasks s ++ [cleanup_task path])%list /\
        ((exists env, r = inr env) \/ (exists e, r = inl (PyException e))))).
Proof.
  destruct s as [mc cv n bg tp tr]. cbn [temp_file_path]. intros -> r s1.
  unfold process_body, try_except, bind. rewrite response_class_eq.
  cbn -[get_converter get_json Pydantic.validate].
  destruct (is_pdf_upload file); cbn -[get_converter get_json Pydantic.validate].
  2:{ intros H. injection H as <- <-. cbn. repeat split; auto.
      left. split; [reflexivity|]. split; [now left | eauto]. }
  destruct (NamedTemporaryFile W) as [e|path] eqn:Htmp;
    cbn -[get_converter get_json Pydantic.validate].
  { intros H. injection H as <- <-. cbn. repeat split; auto.
    left. split; [reflexivity|]. split; [now left | eauto]. }
  assert (Hpath : exists p, inr path = @inr error string p /\ Some path = Some p)
    by eauto.
  destruct (file_read file) as [e|content];
    cbn -[get_converter get_json Pydantic.validate].
  { intros H. injection H as <- <-. cbn. repeat split; auto.
    left. split; [reflexivity|]. split; [now right | eauto]. }
  destruct (temp_file_write W path content) as [e|[]];
    cbn -[get_converter get_json Pydantic.validate].
  { intros H. injection H as <- <-. cbn. repeat split; auto.
    left. split; [reflexivity|]. split; [now right | eauto]. }
  match goal with
  | |- context [get_converter W ?s] =>
      destruct (converter_for W s) as [c|] eqn:Hcf;
        [rewrite (get_converter_ok W s c Hcf)
        |rewrite (get_converter_missing W s Hcf)]
  end; cbn -[get_json Pydantic.validate] in *.
  2:{ intros H. injection H as <- <-. cbn. repeat split; auto.
      left. split; [reflexivity|]. split; [now right | eauto]. }
  assert (Hkeep : forall c', cv = Some c' -> Some c = Some c').
  { intros c' ->. now injection Hcf as ->. }
  destruct (pdf_to_markdown_text W path c false) as [e|markdown];
    cbn -[get_json Pydantic.validate].
  { intros H. injection H as <- <-. cbn. repeat split; auto.
    left. split; [reflexivity|]. split; [now right | eauto]. }
  destruct (PyStr.truthy (PyStr.strip markdown));
    cbn -[get_json Pydantic.validate].
  2:{ intros H. injection H as <- <-. cbn. repeat split; auto.
      left. split; [reflexivity|]. split; [now right | eauto]. }
  rewrite get_json_unfold.
  match goal with
  | |- context [md_to_json.extract W ?nm ?t ?p ?s] =>
      destruct (client_for W s) as [client|] eqn:Hcl;
        [destruct (extract_ok W nm t p s client Hcl)
           as (s2 & -> & Hmc & (Hcv & Hbg & Htp) & _)
        |destruct (extract_missing W nm t p s Hcl)
           as (s2 & -> & Hmc & (Hcv & Hbg & Htp) & _)]
  end; cbn -[Pydantic.validate] in *.
  2:{ intros H. injection H as <- <-. rewrite Hcv, Hmc, Hbg, Htp.
      repeat split; auto.
      left. split; [reflexivity|]. split; [now right | eauto]. }
  assert (Hkeepm : forall m, mc = Some m -> Some client = Some m).
  { intros m ->. now injection Hcl as ->. }
  destruct (json_truthy (extraction_result W client (prompt W k markdown))) eqn:Hj;
    cbn -[Pydantic.validate].
  2:{ intros H. injection H as <- <-. rewrite Hcv, Hmc, Hbg, Htp.
      repeat split; auto.
      left. split; [reflexivity|]. split; [now right | eauto]. }
  destruct (extraction_result W client (prompt W k markdown))
    as [| b | z | f | t | l | d]; cbn -[Pydantic.validate];
    try discriminate;
    try (intros H; injection H as <- <-; cbn; rewrite Hcv, Hmc, Hbg, Htp;
         repeat split; auto; right; exists path;
         repeat split; auto; right; eauto).
  destruct (Pydantic.validate W (report_model k) (JDict d)) as [errors|report];
    cbn.
  - intros H. injection H as <- <-. cbn. rewrite Hcv, Hmc, Hbg, Htp.
    repeat split; auto. right. exists path. repeat split; auto. left. eauto.
  - destruct (new_Response W true _ (Pydantic.model_dump report) _) as [e|env];
      cbn; intros H; injection H as <- <-; cbn; rewrite Hcv, Hmc, Hbg, Htp;
      repeat split; auto; right; exists path; repeat split; auto;
      [right | left]; eauto.
Qed.

Lemma process_except_effects k file e s :
  exists r s',
    process_except k file e s = (inl r, s') /\
    _converter s' = _converter s /\ _mistral_client s' = _mistral_client s /\
    background_tasks s' =
      (background_tasks s ++
       match e, temp_file_path s with
       | PyException _, Some path => [cleanup_task path]
       | _, _ => []
       end)%list.
Proof.
  destruct e as [c d|e]; unfold process_except, bind; cbn.
  - eexists _, _. split; [reflexivity|]. now rewrite app_nil_r.
  - destruct (temp_file_path s) as [path|]; cbn;
      (eexists _, _; split; [reflexivity|]); cbn; rewrite ?app_nil_r; auto.
Qed.

(** X6.  Whatever happens, the only tasks a handler schedules are
    cleanups of the temporary file it created in this request, at most
    two of them; when it returns an envelope it has scheduled exactly
    one, and when the file could not be created it has scheduled none. *)
Theorem handler_schedules_only_its_own_cleanup W k file st :
  exists tasks,
    scheduled st (snd (process_report W k file st)) tasks /\
    (tasks = [] \/
     exists path,
       NamedTemporaryFile W = inr path /\
       (tasks = [cleanup_task path] \/
        tasks = [cleanup_task path; cleanup_task path])) /\
    (forall env, fst (process_report W k file st) = inr env ->
                 exists path, tasks = [cleanup_task path]).
Proof.
  rewrite Handlers.process_report_unfold. unfold scheduled.
  destruct (process_body W k file (time_time W (clock st)) (entered st))
    as [r s1] eqn:Hbody.
  destruct (process_body_effects W k file _ (entered st) eq_refl r s1 Hbody)
    as (_ & _ & [(Hbg & Htp & e & ->) | (path & Htmp & Htp & Hbg & Hr)]);
    cbn [entered background_tasks] in Hbg.
  - destruct (process_except_effects k file e s1) as (r' & s' & -> & _ & _ & Hbg').
    cbn [fst snd]. rewrite Hbg', Hbg.
    destruct e as [c d|e].
    + exists []. repeat split; [now left | discriminate].
    + destruct Htp as [-> | (path & Htmp & ->)].
      * exists []. repeat split; [now left | discriminate].
      * exists [cleanup_task path]. repeat split; [|discriminate].
        right. exists path. auto.
  - destruct Hr as [(env & ->) | (e & ->)].
    + cbn [fst snd]. exists [cleanup_task path]. split; [exact Hbg|].
      split; [right; exists path; auto | eauto].
    + destruct (process_except_effects k file (PyException e) s1)
        as (r' & s' & -> & _ & _ & Hbg').
      cbn [fst snd]. rewrite Hbg', Hbg, Htp, <- app_assoc.
      exists [cleanup_task path; cleanup_task path]. repeat split; [|discriminate].
      right. exists path. auto.
Qed.

(** X7.  A handler never replaces a client that is already cached:
    whatever the outcome, a converter or an LLM client present before the
    request is the one present after it. *)
Theorem handler_keeps_cached_clients W k file st :
  match _converter st with
  | Some c => _converter (snd (process_report W k file st)) = Some c
  | None => True
  end /\
  match _mistral_client st with
  | Some m => _mistral_client (snd (process_report W k file st)) = Some m
  | None => True
  end.
Proof.
  rewrite Handlers.process_report_unfold.
  destruct (process_body W k file (time_time W (clock st)) (entered st))
    as [r s1] eqn:Hbody.
  destruct (process_body_effects W k file _ (entered st) eq_refl r s1 Hbody)
    as (Hc & Hm & _). cbn [entered _converter _mistral_client] in Hc, Hm.
  assert (_converter (snd match r with
                          | inl e => process_except k file e s1
                          | inr env => (inr env, s1)
                          end) = _converter s1 /\
          _mistral_client (snd match r with
                               | inl e => process_except k file e s1
                               | inr env => (inr env, s1)
                               end) = _mistral_client s1) as [Ec Em].
  { destruct r as [e|env]; [|split; reflexivity].
    destruct (process_except_effects k file e s1) as (r' & s' & -> & H1 & H2 & _).
    split; assumption. }
  rewrite Ec, Em.
  destruct (_converter st), (_mistral_client st); auto.
Qed.

End Effects.

(* ===================================================================== *)
(** ** How a report handler fails *)
(* ===================================================================== *)

Module Failures.
Import app Props Steps MoreProps Handlers.

(** X8.  When the conversion gave a text but the generation step gives
    nothing usable (the service call raises, the reply is absent or empty,
    or the reply does not decode), the handler answers 400 with
    [Failed to extract structured data from document], not 500; both the
    conversion and the extraction were called. *)
Theorem failed_generation_is_a_client_error W k file st path markdown client :
  converted W file st path markdown ->
  ~ PyStr.whitespace_only markdown ->
  client_for W st = Some client ->
  ((exists e, chat_complete W client md_to_json.model (prompt W k markdown) = inl e)
   \/ chat_complete W client md_to_json.model (prompt W k markdown) = inr None
   \/ chat_complete W client md_to_json.model (prompt W k markdown)
        = inr (Some EmptyString)
   \/ (exists text e,
         chat_complete W client md_to_json.model (prompt W k markdown)
           = inr (Some text) /\ json_loads W text = inl e)) ->
  exists st',
    process_report W k file st =
      (inl (HTTPException 400 "Failed to extract structured data from document"),
       st') /\
    calls (trace st') =
      (calls (trace st) ++ ["pdf_to_markdown_text"; extractor_name k])%list.
Proof.
  intros Hconv Hblank Hclient Hfail.
  assert (Hres : extraction_result W client (prompt W k markdown) = JDict []).
  { unfold extraction_result.
    destruct Hfail as [(e & ->) | [-> | [-> | (text & e & -> & Hl)]]];
      try reflexivity.
    rewrite Hl. now destruct (PyStr.truthy text). }
  run_to_extraction_result Hconv Hblank Hclient.
  rewrite Hres. cbn.
  eexists. split; [reflexivity|]. cbn. rewrite Hcalls.
  now rewrite <- app_assoc.
Qed.

Lemma failed_generation_is_a_client_error_witness :
  exists st',
    process_report service_down petct (Demo.upload "scan.pdf") Demo.fresh =
      (inl (HTTPException 400 "Failed to extract structured data from document"),
       st') /\
    calls (trace st') = ["pdf_to_markdown_text"; "get_petct_json"].
Proof.
  destruct (failed_generation_is_a_client_error service_down petct
              (Demo.upload "scan.pdf") Demo.fresh "/tmp/tmpk3v9.pdf"
              "# CT abdomen" {| mistral_api_key := "sk-test" |})
    as (st' & H & Hc).
  - apply demo_converted.
  - intros H. inversion H. discriminate.
  - reflexivity.
  - left. eexists. reflexivity.
  - exists st'. split; [exact H | exact Hc].
Defined.

(** X9.  When the reply decodes to a truthy value that is not a mapping
    (a list, a number, a text), the handler answers 500, and by then it has
    scheduled the cleanup twice: once before building the response, once
    in its [except] clause. *)
Theorem non_mapping_reply_is_a_server_error W k file st path j :
  extracted W k file st path j ->
  json_truthy j = true ->
  (forall d, j <> JDict d) ->
  exists detail st',
    process_report W k file st = (inl (HTTPException 500 detail), st') /\
    scheduled st st' [cleanup_task path; cleanup_task path].
Proof.
  intros Hext Hj Hnd. run_to_extraction Hext. rewrite Hj.
  destruct j as [| b | z | f | t | l | d]; try discriminate;
    try (now destruct (Hnd d));
    cbn; rewrite Htp; cbn;
    (eexists _, _; split; [reflexivity|]); unfold scheduled, cleanup_task; cbn;
    rewrite Hbg; now rewrite <- app_assoc.
Qed.

Lemma non_mapping_reply_is_a_server_error_witness :
  exists detail st',
    process_report (Demo.working (JList [JInt 1])) mammogram
      (Demo.upload "scan.pdf") Demo.fresh = (inl (HTTPException 500 detail), st') /\
    background_tasks st' =
      [cleanup_task "/tmp/tmpk3v9.pdf"; cleanup_task "/tmp/tmpk3v9.pdf"].
Proof.
  destruct (non_mapping_reply_is_a_server_error (Demo.working (JList [JInt 1]))
              mammogram (Demo.upload "scan.pdf") Demo.fresh "/tmp/tmpk3v9.pdf"
              (JList [JInt 1]))
    as (detail & st' & H & Hs).
  - apply demo_extracted.
  - reflexivity.
  - discriminate.
  - exists detail, st'. split; [exact H | exact Hs].
Defined.

(** X10.  A request made while no converter is cached and the credential
    is unset or empty still stores the upload, then answers 500 with the
    configuration message; the conversion is never called and the cleanup
    of the stored file is scheduled once. *)
Theorem missing_credential_is_a_server_error W k file st path :
  stored W file path ->
  converter_for W st = None ->
  exists st',
    process_report W k file st =
      (inl (HTTPException 500
              "Internal server error: MISTRAL_API_KEY environment variable not set."),
       st') /\
    scheduled st st' [cleanup_task path] /\
    calls (trace st') = calls (trace st).
Proof.
  intros ((name & Hname & Hpdf) & Htmp & content & Hread & Hwrite) Hconv.
  assert (E : is_pdf_upload file = true) by (apply is_pdf_upload_iff; eauto).
  unfold process_report, process_body, try_except, bind.
  cbn -[get_converter]. rewrite E. cbn -[get_converter].
  rewrite Htmp. cbn -[get_converter]. rewrite Hread. cbn -[get_converter].
  rewrite Hwrite. cbn -[get_converter].
  rewrite get_converter_missing by exact Hconv. cbn.
  eexists. split; [reflexivity|]. unfold scheduled. cbn.
  rewrite !calls_app. cbn. now rewrite !app_nil_r.
Qed.

Lemma missing_credential_is_a_server_error_witness :
  exists st',
    process_report Demo.unconfigured ctscan (Demo.upload "scan.pdf") Demo.fresh =
      (inl (HTTPException 500
              "Internal server error: MISTRAL_API_KEY environment variable not set."),
       st') /\
    background_tasks st' = [cleanup_task "/tmp/tmpk3v9.pdf"].
Proof.
  destruct (missing_credential_is_a_server_error Demo.unconfigured ctscan
              (Demo.upload "scan.pdf") Demo.fresh "/tmp/tmpk3v9.pdf")
    as (st' & H & Hs & _).
  - apply demo_stored.
  - reflexivity.
  - exists st'. split; [exact H | exact Hs].
Defined.

(** X11.  When the conversion raises, the handler answers 500 with the
    text of the error, the extraction is not called, and the cleanup of
    the stored file is scheduled once. *)
Theorem failed_conversion_is_a_server_error W k file st path converter e :
  stored W file path ->
  converter_for W st = Some converter ->
  pdf_to_markdown_text W path converter false = inl e ->
  exists st',
    process_report W k file st =
      (inl (HTTPException 500 ("Internal server error: " ++ error_text e)), st') /\
    scheduled st st' [cleanup_task path] /\
    calls (trace st') = (calls (trace st) ++ ["pdf_to_markdown_text"])%list.
Proof.
  intros ((name & Hname & Hpdf) & Htmp & content & Hread & Hwrite) Hconv Hmd.
  assert (E : is_pdf_upload file = true) by (apply is_pdf_upload_iff; eauto).
  unfold process_report, process_body, try_except, bind.
  cbn -[get_converter]. rewrite E. cbn -[get_converter].
  rewrite Htmp. cbn -[get_converter]. rewrite Hread. cbn -[get_converter].
  rewrite Hwrite. cbn -[get_converter].
  erewrite get_converter_ok by exact Hconv. cbn.
  rewrite Hmd. cbn.
  eexists. split; [reflexivity|]. unfold scheduled. cbn.
  rewrite !calls_app. cbn. now rewrite !app_nil_r.
Qed.

Lemma failed_conversion_is_a_server_error_witness :
  exists st',
    process_report (Demo.failing_conversion "timed out") ctscan
      (Demo.upload "scan.pdf") Demo.fresh =
      (inl (HTTPException 500 "Internal server error: timed out"), st') /\
    background_tasks st' = [cleanup_task "/tmp/tmpk3v9.pdf"] /\
    calls (trace st') = ["pdf_to_markdown_text"].
Proof.
  destruct (failed_conversion_is_a_server_error (Demo.failing_conversion "timed out")
              ctscan (Demo.upload "scan.pdf") Demo.fresh "/tmp/tmpk3v9.pdf"
              {| converter_api_key := "sk-test" |}
              (mkerror "RuntimeError" "timed out"))
    as (st' & H & Hs & Hc).
  - apply demo_stored.
  - reflexivity.
  - reflexivity.
  - exists st'. repeat split; assumption.
Defined.

(** X12.  When the temporary file cannot be created, the handler answers
    500 with the text of the error; nothing was called, and nothing is
    scheduled, there being no file to remove. *)
Theorem failed_temporary_file_is_a_server_error W k file st e :
  is_pdf_upload file = true ->
  NamedTemporaryFile W = inl e ->
  exists st',
    process_report W k file st =
      (inl (HTTPException 500 ("Internal server error: " ++ error_text e)), st') /\
    scheduled st st' [] /\
    temp_file_path st' = None /\
    calls (trace st') = calls (trace st).
Proof.
  intros E Htmp.
  unfold process_report, process_body, try_except, bind.
  cbn -[get_converter]. rewrite E. cbn -[get_converter].
  rewrite Htmp. cbn.
  eexists. split; [reflexivity|]. unfold scheduled. cbn.
  rewrite !calls_app. cbn. now rewrite !app_nil_r.
Qed.

Lemma failed_temporary_file_is_a_server_error_witness :
  exists st',
    process_report no_temporary_file petct (Demo.upload "scan.PDF") Demo.fresh =
      (inl (HTTPException 500 "Internal server error: No space left on device"),
       st') /\
    background_tasks st' = [].
Proof.
  destruct (failed_temporary_file_is_a_server_error no_temporary_file petct
              (Demo.upload "scan.PDF") Demo.fresh
              (mkerror "OSError" "No space left on device") eq_refl eq_refl)
    as (st' & H & Hs & _).
  exists st'. split; [exact H | exact Hs].
Defined.

End Failures.

(* ===================================================================== *)
(** ** More on the extraction operations *)
(* ===================================================================== *)

Module MoreExtraction.
Import app Props Steps MoreProps.

(** X13.  An extraction returns the decoded reply as it is, whatever its
    shape: a list or a number is returned just as a mapping would be.  It
    leaves the converter, the tasks and the handler's variables alone. *)
Theorem extraction_returns_the_decoded_reply W k markdown s client text j :
  client_for W s = Some client ->
  chat_complete W client md_to_json.model (prompt W k markdown) = inr (Some text) ->
  text <> EmptyString ->
  json_loads W text = inr j ->
  exists s',
    get_json W k markdown s = (inr j, s') /\
    _mistral_client s' = Some client /\
    same_request_state s s'.
Proof.
  intros Hc Hchat Htext Hl. rewrite get_json_unfold.
  destruct (extract_ok W (extractor_name k) (title k) (prompt W k markdown) s client Hc)
    as (s' & -> & Hmc & Hsame & _).
  exists s'. unfold extraction_result. rewrite Hchat.
  destruct text; [now destruct Htext|]. cbn. rewrite Hl. auto.
Qed.

Lemma extraction_returns_the_decoded_reply_witness :
  exists s',
    get_json (Demo.working (JList [JInt 1])) petct "# PET" Demo.fresh
      = (inr (JList [JInt 1]), s').
Proof.
  destruct (extraction_returns_the_decoded_reply (Demo.working (JList [JInt 1]))
              petct "# PET" Demo.fresh {| mistral_api_key := "sk-test" |}
              "{...}" (JList [JInt 1]) eq_refl eq_refl)
    as (s' & H & _).
  - discriminate.
  - reflexivity.
  - exists s'. exact H.
Defined.

(** X14.  An extraction that found or built a client leaves it cached, so
    that no later extraction raises, of whatever kind and even with the
    credential gone from the environment. *)
Theorem extraction_leaves_a_client_for_later W k markdown s client :
  client_for W s = Some client ->
  exists j s',
    get_json W k markdown s = (inr j, s') /\
    forall W' k' markdown',
      exists j' s'', get_json W' k' markdown' s' = (inr j', s'').
Proof.
  intros Hc. rewrite get_json_unfold.
  destruct (extract_ok W (extractor_name k) (title k) (prompt W k markdown) s client Hc)
    as (s' & -> & Hmc & _).
  eexists _, s'. split; [reflexivity|]. intros W' k' markdown'.
  rewrite get_json_unfold.
  assert (Hc' : client_for W' s' = Some client)
    by (unfold client_for; now rewrite Hmc).
  destruct (extract_ok W' (extractor_name k') (title k') (prompt W' k' markdown')
              s' client Hc') as (s'' & -> & _).
  eauto.
Qed.

Lemma extraction_leaves_a_client_for_later_witness :
  exists j s' j' s'',
    get_json (Demo.working (JDict Demo.minimal_ct)) ctscan "# CT" Demo.fresh
      = (inr j, s') /\
    get_json Demo.unconfigured mammogram "# Mammo" s' = (inr j', s'').
Proof.
  destruct (extraction_leaves_a_client_for_later
              (Demo.working (JDict Demo.minimal_ct)) ctscan "# CT" Demo.fresh
              {| mistral_api_key := "sk-test" |} eq_refl)
    as (j & s' & H & Hlater).
  destruct (Hlater Demo.unconfigured mammogram "# Mammo") as (j' & s'' & H').
  exists j, s', j', s''. split; assumption.
Defined.

Lemma string_app_assoc (a b c : string) : (a ++ b) ++ c = a ++ b ++ c.
Proof. induction a as [|x a IH]; cbn; [reflexivity | now rewrite IH]. Qed.

Lemma prompt_of_shape W opening cls notes markdown :
  md_to_json.prompt_of W opening cls notes markdown =
    (opening ++ " Return only a JSON object conforming to this schema:"
     ++ md_to_json.newline ++ md_to_json.newline)
    ++ schema_text W cls
    ++ (md_to_json.newline ++ md_to_json.newline ++ "Important notes:"
        ++ md_to_json.newline ++ notes ++ md_to_json.newline)
    ++ "Report:" ++ md_to_json.newline ++ markdown.
Proof. unfold md_to_json.prompt_of. now rewrite !string_app_assoc. Qed.

(** X15.  The prompt of each extraction carries the schema of the very
    model its handler validates against, and ends with the line [Report:]
    followed by the markdown text, unchanged. *)
Theorem prompt_carries_the_schema_and_the_report W k markdown :
  exists before between,
    prompt W k markdown =
      before ++ schema_text W (model_name (report_model k)) ++ between
      ++ "Report:" ++ md_to_json.newline ++ markdown.
Proof. destruct k; eexists _, _; apply prompt_of_shape. Qed.

End MoreExtraction.

(* ===================================================================== *)
(** ** The command-line entry point *)
(* ===================================================================== *)

Module Cli.
Import app Props Steps MoreProps md_to_json_cli.

(** With the input read and a report type among the three, [main] runs
    the extraction of that type and hands its result to the output step. *)
Lemma main_runs_the_extraction W F args cs markdown k :
  read_text F (input_file args) = inr markdown ->
  report_type args = Some (type_option k) ->
  main W F args cs =
  cbind (run (get_json W k markdown))
        (fun json_output =>
           if json_truthy json_output then output F args json_output
           else cret tt) cs.
Proof.
  intros Hr Ht. unfold main. rewrite Hr. unfold is_type. rewrite Ht.
  now destruct k.
Qed.

(** X16.  When the input file does not exist, [main] logs
    [Input file not found] with the path and returns: no extraction is
    run, nothing is printed or written. *)
Theorem cli_reports_a_missing_input W F args cs e :
  read_text F (input_file args) = inl e ->
  error_class e = "FileNotFoundError" ->
  exists cs',
    main W F args cs = (inr tt, cs') /\
    written cs' = written cs /\
    trace (process cs') =
      (trace (process cs)
       ++ [Log ERROR ("Input file not found: " ++ input_file args)])%list /\
    _mistral_client (process cs') = _mistral_client (process cs).
Proof.
  intros Hr Hc. unfold main. rewrite Hr, Hc. cbn.
  eexists. split; [reflexivity|]. auto.
Qed.

Lemma cli_reports_a_missing_input_witness :
  exists cs',
    main (Demo.working JNull) demo_files
      (demo_args "absent.md" None (Some "ctscan")) cli_fresh = (inr tt, cs') /\
    trace (process cs') = [Log ERROR "Input file not found: absent.md"].
Proof.
  destruct (cli_reports_a_missing_input (Demo.working JNull) demo_files
              (demo_args "absent.md" None (Some "ctscan")) cli_fresh
              (mkerror "FileNotFoundError" "[Errno 2] No such file or directory")
              eq_refl eq_refl)
    as (cs' & H & _ & Ht & _).
  exists cs'. split; [exact H | exact Ht].
Defined.

(** X17.  Any other error of reading the input is not caught: it leaves
    [main] as it is, before anything else is done. *)
Theorem cli_lets_other_read_errors_through W F args cs e :
  read_text F (input_file args) = inl e ->
  error_class e <> "FileNotFoundError" ->
  main W F args cs = (inl (PyException e), cs).
Proof.
  intros Hr Hc. unfold main. rewrite Hr.
  destruct (String.eqb_spec (error_class e) "FileNotFoundError"); [contradiction|].
  reflexivity.
Qed.

Lemma cli_lets_other_read_errors_through_witness :
  main (Demo.working JNull)
    {| read_text := fun _ => inl (mkerror "PermissionError" "[Errno 13]");
       write_text := fun _ _ => inr tt;
       json_dumps := fun _ => "{}" |}
    (demo_args "report.md" None (Some "ctscan")) cli_fresh
  = (inl (PyException (mkerror "PermissionError" "[Errno 13]")), cli_fresh).
Proof.
  apply cli_lets_other_read_errors_through; [reflexivity | discriminate].
Defined.

(** X18.  When [args.report_type] is none of the three types, [main]
    reads the input, logs [Unsupported report type] with the value and
    returns without running an extraction or writing a file.  Through
    [parse_args] this is the case of an absent [--report_type] (the option
    is not required, and [choices] lets no other value through); the text
    logged is then [None]. *)
Theorem cli_rejects_an_unknown_report_type W F args cs markdown :
  read_text F (input_file args) = inr markdown ->
  known_type (report_type args) = false ->
  exists cs',
    main W F args cs = (inr tt, cs') /\
    written cs' = written cs /\
    trace (process cs') =
      (trace (process cs)
       ++ [Log ERROR ("Unsupported report type: " ++ report_type_text args)])%list.
Proof.
  intros Hr Hk. unfold main. rewrite Hr. unfold known_type in Hk.
  unfold is_type. destruct (report_type args) as [t|] eqn:Ht.
  - apply orb_false_iff in Hk as [Hk H3]. apply orb_false_iff in Hk as [H1 H2].
    rewrite H1, H2, H3. cbn. eexists. split; [reflexivity|]. auto.
  - cbn. eexists. split; [reflexivity|]. auto.
Qed.

Lemma cli_rejects_an_unknown_report_type_witness :
  exists cs',
    main (Demo.working JNull) demo_files (demo_args "report.md" None None) cli_fresh
      = (inr tt, cs') /\
    trace (process cs') = [Log ERROR "Unsupported report type: None"].
Proof.
  destruct (cli_rejects_an_unknown_report_type (Demo.working JNull) demo_files
              (demo_args "report.md" None None) cli_fresh "# CT abdomen"
              eq_refl eq_refl)
    as (cs' & H & _ & Ht).
  exists cs'. split; [exact H | exact Ht].
Defined.

(** X19.  When the extraction gives nothing (an empty mapping, as after
    any failure of the service), [main] ends there: it returns normally
    in the very state the extraction left, having printed and written
    nothing of its own. *)
Theorem cli_is_silent_on_an_empty_result W F args cs markdown k client :
  read_text F (input_file args) = inr markdown ->
  report_type args = Some (type_option k) ->
  client_for W (process cs) = Some client ->
  json_truthy (extraction_result W client (prompt W k markdown)) = false ->
  exists s',
    get_json W k markdown (process cs)
      = (inr (extraction_result W client (prompt W k markdown)), s') /\
    main W F args cs = (inr tt, mkcli s' (written cs)).
Proof.
  intros Hr Ht Hc Hj.
  rewrite (main_runs_the_extraction W F args cs markdown k Hr Ht).
  unfold cbind, run. rewrite get_json_unfold.
  destruct (extract_ok W (extractor_name k) (title k) (prompt W k markdown)
              (process cs) client Hc) as (s' & -> & _).
  exists s'. split; [reflexivity|]. now rewrite Hj.
Qed.

Lemma cli_is_silent_on_an_empty_result_witness :
  exists s',
    main service_down demo_files
      (demo_args "report.md" (Some "out.json") (Some "petct")) cli_fresh
    = (inr tt, mkcli s' []).
Proof.
  destruct (cli_is_silent_on_an_empty_result service_down demo_files
              (demo_args "report.md" (Some "out.json") (Some "petct")) cli_fresh
              "# CT abdomen" petct {| mistral_api_key := "sk-test" |}
              eq_refl eq_refl eq_refl eq_refl)
    as (s' & _ & H).
  exists s'. exact H.
Defined.

(** X20.  A non-empty result goes to the output file when one is named:
    the file is written once, with the JSON text of the result, and to
    what the extraction has logged and printed [main] adds the record of
    the success and nothing else: the result itself is not printed. *)
Theorem cli_writes_the_result_to_the_output_file
  W F args cs markdown k client path :
  read_text F (input_file args) = inr markdown ->
  report_type args = Some (type_option k) ->
  client_for W (process cs) = Some client ->
  json_truthy (extraction_result W client (prompt W k markdown)) = true ->
  output_file args = Some path ->
  path <> EmptyString ->
  write_text F path
    (json_dumps F (extraction_result W client (prompt W k markdown))) = inr tt ->
  exists s' cs',
    get_json W k markdown (process cs)
      = (inr (extraction_result W client (prompt W k markdown)), s') /\
    main W F args cs = (inr tt, cs') /\
    written cs' =
      (written cs
       ++ [(path, json_dumps F (extraction_result W client (prompt W k markdown)))])%list /\
    trace (process cs') =
      (trace s' ++ [Log INFO ("Successfully created JSON output at " ++ path)])%list.
Proof.
  intros Hr Ht Hc Hj Ho Hp Hw.
  rewrite (main_runs_the_extraction W F args cs markdown k Hr Ht).
  unfold cbind, run. rewrite get_json_unfold.
  destruct (extract_ok W (extractor_name k) (title k) (prompt W k markdown)
              (process cs) client Hc) as (s' & -> & _).
  exists s'. rewrite Hj. unfold output. rewrite Ho.
  destruct path as [|a path]; [now destruct Hp|].
  unfold cbind, write, run. rewrite Hw. cbn.
  eexists. repeat split.
Qed.

Lemma cli_writes_the_result_to_the_output_file_witness :
  exists cs',
    main (Demo.working (JDict Demo.minimal_ct)) demo_files
      (demo_args "report.md" (Some "out.json") (Some "ctscan")) cli_fresh
    = (inr tt, cs') /\
    written cs' = [("out.json", "{ ... }")].
Proof.
  destruct (cli_writes_the_result_to_the_output_file
              (Demo.working (JDict Demo.minimal_ct)) demo_files
              (demo_args "report.md" (Some "out.json") (Some "ctscan")) cli_fresh
              "# CT abdomen" ctscan {| mistral_api_key := "sk-test" |} "out.json"
              eq_refl eq_refl eq_refl eq_refl eq_refl)
    as (s' & cs' & _ & H & Hw & _).
  - discriminate.
  - reflexivity.
  - exists cs'. split; [exact H | exact Hw].
Defined.

(** X21.  Without an output file (none given, or an empty name) a
    non-empty result is printed, as its JSON text, and no file is
    written. *)
Theorem cli_prints_the_result_without_an_output_file
  W F args cs markdown k client :
  read_text F (input_file args) = inr markdown ->
  report_type args = Some (type_option k) ->
  client_for W (process cs) = Some client ->
  json_truthy (extraction_result W client (prompt W k markdown)) = true ->
  (output_file args = None \/ output_file args = Some EmptyString) ->
  exists s' cs',
    get_json W k markdown (process cs)
      = (inr (extraction_result W client (prompt W k markdown)), s') /\
    main W F args cs = (inr tt, cs') /\
    written cs' = written cs /\
    trace (process cs') =
      (trace s'
       ++ [Print (json_dumps F (extraction_result W client (prompt W k markdown)))])%list.
Proof.
  intros Hr Ht Hc Hj Ho.
  rewrite (main_runs_the_extraction W F args cs markdown k Hr Ht).
  unfold cbind, run. rewrite get_json_unfold.
  destruct (extract_ok W (extractor_name k) (title k) (prompt W k markdown)
              (process cs) client Hc) as (s' & -> & _).
  exists s'. rewrite Hj. unfold output, run.
  destruct Ho as [-> | ->]; cbn; eexists; repeat split.
Qed.

Lemma cli_prints_the_result_without_an_output_file_witness :
  exists cs',
    main (Demo.working (JDict Demo.minimal_ct)) demo_files
      (demo_args "report.md" None (Some "ctscan")) cli_fresh
    = (inr tt, cs') /\
    written cs' = [] /\
    In (Print "{ ... }") (trace (process cs')).
Proof.
  destruct (cli_prints_the_result_without_an_output_file
              (Demo.working (JDict Demo.minimal_ct)) demo_files
              (demo_args "report.md" None (Some "ctscan")) cli_fresh
              "# CT abdomen" ctscan {| mistral_api_key := "sk-test" |}
              eq_refl eq_refl eq_refl eq_refl (or_introl eq_refl))
    as (s' & cs' & _ & H & Hw & Ht).
  exists cs'. split; [exact H|]. split; [exact Hw|].
  rewrite Ht. apply in_or_app. right. now left.
Defined.

(** X22.  With no client cached and the credential unset or empty,
    [main] does not end normally: the configuration error of
    [get_mistral_client] leaves it, after the input was read and before
    anything is written. *)
Theorem cli_raises_without_a_credential W F args cs markdown k :
  read_text F (input_file args) = inr markdown ->
  report_type args = Some (type_option k) ->
  client_for W (process cs) = None ->
  exists cs',
    main W F args cs = (inl missing_key, cs') /\
    written cs' = written cs.
Proof.
  intros Hr Ht Hc.
  rewrite (main_runs_the_extraction W F args cs markdown k Hr Ht).
  unfold cbind, run. rewrite get_json_unfold.
  destruct (extract_missing W (extractor_name k) (title k) (prompt W k markdown)
              (process cs) Hc) as (s' & -> & _).
  eexists. split; reflexivity.
Qed.

Lemma cli_raises_without_a_credential_witness :
  exists cs',
    main Demo.unconfigured demo_files
      (demo_args "report.md" None (Some "mammogram")) cli_fresh
    = (inl missing_key, cs').
Proof.
  destruct (cli_raises_without_a_credential Demo.unconfigured demo_files
              (demo_args "report.md" None (Some "mammogram")) cli_fresh
              "# CT abdomen" mammogram eq_refl eq_refl eq_refl)
    as (cs' & H & _).
  exists cs'. exact H.
Defined.

End Cli.

(* ===================================================================== *)
(** ** The report models as canonical forms *)
(* ===================================================================== *)

Module Canonical.
Import Pydantic Props MoreProps PydanticFacts.

Lemma digit_of_digit_char n :
  0 <= n <= 9 -> PyDate.digit (PyDate.digit_char n) = Some n.
Proof.
  intros [Hlo Hhi]. destruct n as [|p|p]; [reflexivity| |lia].
  do 4 (try (destruct p as [p|p|]; try reflexivity)); lia.
Qed.

(** A date of the calendar, written in ISO format, reads back as
    itself. *)
Lemma fromisoformat_isoformat d :
  PyDate.valid d = true -> PyDate.fromisoformat (PyDate.isoformat d) = Some d.
Proof.
  destruct d as [y m dd]. intros V. pose proof V as V'.
  unfold PyDate.valid in V'. cbn [PyDate.year PyDate.month PyDate.day] in V'.
  repeat (apply andb_true_iff in V' as [V' ?]).
  assert (dd <= 31).
  { assert (PyDate.days_in_month y m <= 31)
      by (unfold PyDate.days_in_month;
          repeat match goal with |- context [if ?b then _ else _] => destruct b end;
          lia).
    lia. }
  unfold PyDate.isoformat, PyDate.pad4, PyDate.pad2.
  cbn [PyDate.year PyDate.month PyDate.day append PyDate.fromisoformat].
  rewrite !digit_of_digit_char by (Z.div_mod_to_equations; lia).
  cbv zeta.
  replace (1000 * (y / 1000) + 100 * (y / 100 mod 10) + 10 * (y / 10 mod 10)
           + y mod 10) with y by (Z.div_mod_to_equations; lia).
  replace (10 * (m / 10) + m mod 10) with m by (Z.div_mod_to_equations; lia).
  replace (10 * (dd / 10) + dd mod 10) with dd by (Z.div_mod_to_equations; lia).
  rewrite V. reflexivity.
Qed.

Lemma fromisoformat_valid s d :
  PyDate.fromisoformat s = Some d -> PyDate.valid d = true.
Proof.
  intros H. pose proof (PyDateFacts.isoformat_fromisoformat s d H) as E.
  unfold PyDate.fromisoformat in H.
  destruct s as [|y1 [|y2 [|y3 [|y4 [|h1 [|m1 [|m2 [|h2 [|d1 [|d2 [|x r]]]]]]]]]]];
    try discriminate.
  destruct (PyDate.digit y1), (PyDate.digit y2), (PyDate.digit y3),
    (PyDate.digit y4), (PyDate.digit m1), (PyDate.digit m2),
    (PyDate.digit d1), (PyDate.digit d2); try discriminate.
  cbv zeta in H.
  match type of H with
  | (if ?a && ?b && PyDate.valid ?r then _ else _) = _ =>
      destruct (PyDate.valid r) eqn:V;
        [|rewrite !andb_false_r in H; discriminate];
      destruct (a && b); [|discriminate]
  end.
  cbn in H. now injection H as <-.
Qed.

Lemma nodupb_NoDup l : nodupb l = true -> NoDup l.
Proof.
  induction l as [|x l IH]; cbn; intros H; constructor.
  - apply andb_true_iff in H as [H _]. apply negb_true_iff in H.
    intros Hin. assert (existsb (String.eqb x) l = true); [|congruence].
    apply existsb_exists. exists x. split; [exact Hin | apply String.eqb_refl].
  - apply andb_true_iff in H as [_ H]. auto.
Qed.

Lemma plain_optional t j : plain t j -> plain (TOptional t) j.
Proof.
  intros H. destruct j; try (apply pl_optional; [discriminate | exact H]).
  apply pl_null.
Qed.

(** In a disciplined schema, whatever validation accepts, the JSON form
    of its dump is plain: every field is there, in order, with the JSON
    type of its declaration. *)
Lemma dump_of_valid_is_plain W t :
  lax_dates_are_valid W ->
  disciplined t = true ->
  forall j v, validate W t j = inr v -> plain t (dumped_json v).
Proof.
  intros Hlax. unfold dumped_json.
  induction t as [| | | | | t IH | t IH | cls fs IH] using ftype_nested_ind;
    intros Hd j v H.
  - destruct j; cbn in H; try discriminate. injection H as <-. constructor.
  - destruct j; cbn [validate validate_int] in H;
      try (apply or_lax_inr in H as (x & _ & ->); constructor).
    injection H as <-. constructor.
  - discriminate Hd.
  - destruct j; cbn [validate validate_bool] in H;
      try (apply or_lax_inr in H as (x & _ & ->); constructor).
    injection H as <-. constructor.
  - assert (exists d, v = PDate d /\ PyDate.valid d = true) as (d & -> & V).
    { destruct j; cbn [validate validate_date] in H;
        try (apply or_lax_inr in H as (x & Hx & ->); eauto).
      destruct (PyDate.fromisoformat s) as [d|] eqn:E.
      - injection H as <-. eauto using fromisoformat_valid.
      - apply or_lax_inr in H as (x & Hx & ->). eauto. }
    cbn. apply pl_date with d. now apply fromisoformat_isoformat.
  - assert (t = TFloat \/ disciplined t = true) as [-> | Hd']
      by (destruct t; cbn in Hd; auto).
    + assert (v = PNone \/ exists f, v = PFloat f) as [-> | (f & ->)].
      { destruct j; cbn [validate validate_float] in H;
          try (apply or_lax_inr in H as (x & _ & ->); eauto).
        * injection H as <-. now left.
        * destruct (float_is_finite (float_of_int n)); [|discriminate].
          injection H as <-. eauto.
        * injection H as <-. eauto. }
      * apply pl_null.
      * cbn. destruct (float_is_finite f) eqn:F; [|apply pl_null].
        apply pl_optional; [discriminate | now apply pl_float].
    + destruct j; cbn [validate] in H;
        try (apply plain_optional; now apply (IH Hd' _ _ H)).
      injection H as <-. apply pl_null.
  - cbn [disciplined] in Hd.
    destruct j; cbn [validate] in H; try discriminate.
    destruct (validate_items (validate W t) 0 items) as [es|vs] eqn:E;
      [discriminate|]. injection H as <-.
    apply validate_items_inr in E. cbn. constructor.
    induction E as [|j v js vs Hv _ IHE]; cbn; constructor; eauto.
  - apply validate_model_inr in H as (d & attrs & -> & -> & H).
    cbn [disciplined] in Hd. apply andb_true_iff in Hd as [Hnd Hall].
    cbn. rewrite map_map. cbn. constructor; [now apply nodupb_NoDup|].
    clear Hnd. revert attrs H.
    induction IH as [|[name [t p]] fs Ht _ IHfs]; cbn; intros attrs H.
    + injection H as <-. constructor.
    + cbn in Hall. apply andb_true_iff in Hall as [Hf Hall].
      apply andb_true_iff in Hf as [Hdt Hp].
      apply both_inr in H as (v & vs & Hv & Hrest & ->). cbn.
      constructor; [|now apply IHfs].
      destruct (lookup name d) as [j|].
      * apply at_loc_inr in Hv. now apply (Ht Hdt j v).
      * destruct p; [discriminate|]. injection Hv as <-.
        destruct t; try discriminate. apply pl_null.
Qed.

Lemma report_models_are_disciplined k : disciplined (app.report_model k) = true.
Proof. destruct k; reflexivity. Qed.

(** X23.  Canonicalisation is idempotent.  For each report kind, the data
    a handler sends for a validated report (the JSON form of its dump, in
    which an infinity or a NaN is written [null]) is itself accepted by the
    report model, and validating it gives the same data again: every float
    field of the models is [Optional], so the [null] is accepted.  This
    holds as long as the dates pydantic-core produces are dates of the
    calendar. *)
Theorem dumped_report_validates_to_itself W k d report :
  lax_dates_are_valid W ->
  validate W (app.report_model k) (JDict d) = inr report ->
  exists report',
    validate W (app.report_model k) (dumped_json report) = inr report' /\
    dumped_json report' = dumped_json report.
Proof.
  intros Hlax H.
  apply RoundTrip.plain_round_trip.
  exact (dump_of_valid_is_plain W _ Hlax (report_models_are_disciplined k) _ _ H).
Qed.

Lemma dumped_report_validates_to_itself_witness :
  exists report report',
    validate (Demo.working JNull) mammo_models.MammogramReport
      (JDict Demo.mammogram_with_string_score) = inr report /\
    validate (Demo.working JNull) mammo_models.MammogramReport
      (dumped_json report) = inr report' /\
    dumped_json report' = dumped_json report /\
    json_path ["birads_score"] (dumped_json report) = Some (JInt 4).
Proof.
  eexists.
  destruct (dumped_report_validates_to_itself (Demo.working JNull) app.mammogram
              Demo.mammogram_with_string_score _
              ltac:(intros j d; discriminate) eq_refl)
    as (report' & H1 & H2).
  exists report'. split; [reflexivity|]. split; [exact H1|]. split; [exact H2|].
  reflexivity.
Defined.

(** Every model class of the two files follows the discipline. *)
Lemma declared_models_are_disciplined :
  forallb disciplined declared_models = true.
Proof. reflexivity. Qed.

Lemma lookup_skips_another_key {A : Type} name key (v : A) d1 d2 :
  name <> key ->
  lookup name (d1 ++ (key, v) :: d2) = lookup name (d1 ++ d2).
Proof.
  intros Hn. induction d1 as [|[k' v'] d1 IH]; cbn.
  - destruct (String.eqb_spec name key); [contradiction | reflexivity].
  - now rewrite IH.
Qed.

Lemma validate_fields_skip f fs key v d1 d2 :
  ~ In key (keys fs) ->
  validate_fields f (d1 ++ (key, v) :: d2) fs = validate_fields f (d1 ++ d2) fs.
Proof.
  induction fs as [|[name [t p]] fs IH]; cbn; intros Hk; [reflexivity|].
  rewrite lookup_skips_another_key by (intros ->; apply Hk; now left).
  rewrite IH by (intros Hin; apply Hk; now right). reflexivity.
Qed.

(** X24.  A key of the extracted mapping that is no field of the report
    model has no influence on validation: with or without it, wherever it
    stands in the mapping, the outcome is the same report or the same
    errors. *)
Theorem unknown_key_does_not_matter W k key v d1 d2 :
  ~ In key (keys (model_fields (app.report_model k))) ->
  validate W (app.report_model k) (JDict (d1 ++ (key, v) :: d2)) =
  validate W (app.report_model k) (JDict (d1 ++ d2)).
Proof.
  intros Hk.
  destruct (Steps.report_model_fields k) as (cls & f & fs & E).
  rewrite E in *. cbn [validate model_fields] in *.
  now rewrite validate_fields_skip.
Qed.

Lemma unknown_key_does_not_matter_witness :
  validate (Demo.working JNull) ct_models.CTScanReport
    (JDict (("referring_physician", JStr "Dr. Roe") :: Demo.minimal_ct)) =
  validate (Demo.working JNull) ct_models.CTScanReport (JDict Demo.minimal_ct).
Proof.
  apply (unknown_key_does_not_matter (Demo.working JNull) app.ctscan
           "referring_physician" (JStr "Dr. Roe") [] Demo.minimal_ct).
  cbn. intuition discriminate.
Defined.

End Canonical.

(* ===================================================================== *)
(** ** Two more runs of the handlers *)
(* ===================================================================== *)

Module Runs.
Import app Props MoreProps.

(** X25.  When the extracted mapping already is what the report model
    declares (every field supplied, in order, with its declared JSON type,
    numbers finite, dates as valid [YYYY-MM-DD] strings), the handler
    returns an envelope and the data of the response body is that mapping,
    unchanged. *)
Theorem plain_report_is_sent_unchanged W k file st path d :
  extracted W k file st path (JDict d) ->
  plain (report_model k) (JDict d) ->
  exists env st',
    process_report W k file st = (inr env, st') /\
    json_path ["data"] (body (respond (inr env))) = Some (JDict d).
Proof. apply Handlers.plain_extraction_is_returned_unchanged. Qed.

Lemma plain_report_is_sent_unchanged_witness :
  exists env st',
    process_report (Demo.working (JDict Demo.full_ct)) ctscan
      (Demo.upload "scan.pdf") Demo.fresh = (inr env, st') /\
    json_path ["data"] (body (respond (inr env))) = Some (JDict Demo.full_ct).
Proof.
  exact (plain_report_is_sent_unchanged
           (Demo.working (JDict Demo.full_ct)) ctscan (Demo.upload "scan.pdf")
           Demo.fresh "/tmp/tmpk3v9.pdf" Demo.full_ct
           (Handlers.demo_extracted ctscan _) RoundTrip.full_ct_is_plain).
Defined.

(** X26.  Every 500 a report handler raises comes from an ordinary
    exception raised in its [try] block, and its detail is
    [Internal server error: ] followed by the text of that exception: a
    handler raises no 500 of another form. *)
Theorem a_500_always_wraps_an_exception W k file st detail st' :
  process_report W k file st = (inl (HTTPException 500 detail), st') ->
  exists e s1,
    process_body W k file (time_time W (clock st)) (entered st)
      = (inl (PyException e), s1) /\
    detail = "Internal server error: " ++ error_text e.
Proof. apply Handlers.every_500_carries_an_exception_text. Qed.

Lemma a_500_always_wraps_an_exception_witness :
  exists e s1,
    process_body (Demo.failing_conversion "timed out") ctscan
      (Demo.upload "scan.pdf")
      (time_time (Demo.failing_conversion "timed out") (clock Demo.fresh))
      (entered Demo.fresh) = (inl (PyException e), s1) /\
    "Internal server error: timed out" = "Internal server error: " ++ error_text e.
Proof.
  exact (a_500_always_wraps_an_exception
           (Demo.failing_conversion "timed out") ctscan (Demo.upload "scan.pdf")
           Demo.fresh "Internal server error: timed out" _ eq_refl).
Defined.

End Runs.
